(** * A shallow embedding of [scripts/server.py]

    The server is a thin HTTP facade over a tokenizer, a causal language
    model and a model-hub download client.  This development embeds the
    parts of the script that carry logic of their own:

    - [build_prompt], the rendering of a conversation into one string;
    - [ensure_model], the download-on-first-use cache, over an explicit
      model of the file system and of the calls made to the hub;
    - [chat_completions], the request handler: parameter defaults, the
      call of the runtime, the extraction of the completion text, the usage
      block and the response envelope.

    The tokenizer, the model and the hub client are external to the script.
    They are taken as parameters (the classes [Runtime] and [Hub]) and the
    theorems hold for every instance of them. *)

From Stdlib Require Import ZArith NArith List Bool Lia String Ascii.
From Stdlib Require Import Floats.SpecFloat.
From Stdlib Require Import Numbers.DecimalString.
From stdpp Require Import base option list countable gmap fin_maps.

Open Scope Z_scope.

(** ** Python strings

    A Python [str] is a sequence of Unicode code points and [len] counts
    code points, so a string is modelled as the list of its code points. *)

Module PyStr.

Abbreviation char := N.
Abbreviation pystr := (list N).

(** An ASCII literal of the source, as a string of code points. *)
Definition lit (s : string) : pystr :=
  map N_of_ascii (list_ascii_of_string s).

(** The string ["\n"]. *)
Definition newline : pystr := [10%N].

(** [len(s)] *)
Definition len (s : pystr) : Z := Z.of_nat (length s).

(** [sep.join(parts)] *)
Fixpoint join (sep : pystr) (parts : list pystr) : pystr :=
  match parts with
  | [] => []
  | [p] => p
  | p :: rest => p ++ sep ++ join sep rest
  end.

(** [s[n:]] for an index [n >= 0] (indices past the end give the empty
    string, as Python's slices clamp); for [n < 0] the slice starts
    [-n] characters before the end, or at the start when [-n] exceeds
    the length. *)
Definition slice_from (s : pystr) (n : Z) : pystr :=
  if 0 <=? n then drop (Z.to_nat n) s
  else drop (Z.to_nat (Z.max 0 (len s + n))) s.

(** The code points for which [str.isspace] holds of a one-character
    string; they are the ones [str.strip()] removes. *)
Definition is_space (c : char) : bool :=
  ((9 <=? c) && (c <=? 13) || (28 <=? c) && (c <=? 32)
   || (c =? 133) || (c =? 160) || (c =? 5760)
   || (8192 <=? c) && (c <=? 8202)
   || (c =? 8232) || (c =? 8233) || (c =? 8239) || (c =? 8287)
   || (c =? 12288))%N.

(** [s.lstrip()], [s.rstrip()] and [s.strip()] *)
Fixpoint lstrip (s : pystr) : pystr :=
  match s with
  | [] => []
  | c :: rest => if is_space c then lstrip rest else s
  end.

Definition rstrip (s : pystr) : pystr := rev (lstrip (rev s)).

Definition strip (s : pystr) : pystr := rstrip (lstrip s).

(** Truth value of a string: the empty string is false. *)
Definition truthy (s : pystr) : bool :=
  match s with [] => false | _ => true end.

(** [a or b] on strings *)
Definition or_else (a b : pystr) : pystr := if truthy a then a else b.

End PyStr.
Import PyStr.

(** ** Messages and the prompt builder *)

(** A message is a [dict[str, str]]. *)
Abbreviation message := (gmap (list N) (list N)).

(** [d.get(key, default)] *)
Definition dict_get {V} (d : gmap (list N) V) (key : string) (default : V) : V :=
  match d !! lit key with
  | Some v => v
  | None => default
  end.

(** The body of the loop of [build_prompt]: one message is formatted as
    [f"{role}: {content}"] and appended to the transcript. *)
Definition render_message (msg : message) : pystr :=
  let role := dict_get msg "role" (lit "user") in
  let content := dict_get msg "content" (lit "") in
  role ++ lit ": " ++ content.

Definition build_prompt (messages : list message) : pystr :=
  let transcript := [] in
  let transcript :=
    fold_left (fun transcript msg => transcript ++ [render_message msg])
              messages transcript in
  let transcript := transcript ++ [lit "assistant:"] in
  join newline transcript.

(** ** Exceptions and results *)

Inductive exn :=
| ValueError
| OverflowError
| FileExistsError
| FileNotFoundError
| NotADirectoryError
| ExternalFault (code : Z).

Inductive result (A : Type) :=
| Ok (a : A)
| Raise (e : exn).
Arguments Ok {A} a.
Arguments Raise {A} e.

(** ** JSON numbers and the conversions [int(...)] and [float(...)]

    A number of a JSON body arrives as a Python [int] or as a Python
    [float]; a float is an IEEE 754 binary64 value. *)

Inductive number :=
| Int (z : Z)
| Float (f : spec_float).

Definition prec64 : Z := 53.
Definition emax64 : Z := 1024.

(** The float literals [0.7] and [0.8] of the source: the binary64 values
    nearest to 7/10 and 8/10. *)
Definition float_0_7 : spec_float := S754_finite false 6305039478318694 (-53).
Definition float_0_8 : spec_float := S754_finite false 7205759403792794 (-53).
Definition float_zero : spec_float := S754_zero false.

(** [int(x)]: the identity on an int; a float is truncated towards zero, a
    NaN raises [ValueError] and an infinity raises [OverflowError]. *)
Definition py_int (x : number) : result Z :=
  match x with
  | Int z => Ok z
  | Float (S754_zero _) => Ok 0
  | Float (S754_finite s m e) =>
      let a := if 0 <=? e then Z.shiftl (Z.pos m) e else Z.shiftr (Z.pos m) (- e) in
      Ok (if s then - a else a)
  | Float S754_nan => Raise ValueError
  | Float (S754_infinity _) => Raise OverflowError
  end.

(** [float(x)]: the identity on a float; an int is rounded to the nearest
    binary64 value, ties to even, and raises [OverflowError] when it is too
    large for a float. *)
Definition py_float (x : number) : result spec_float :=
  match x with
  | Float f => Ok f
  | Int z =>
      match binary_normalize prec64 emax64 z 0 false with
      | S754_infinity _ => Raise OverflowError
      | f => Ok f
      end
  end.

(** [a > b] on floats: false when either side is a NaN. *)
Definition float_gt (a b : spec_float) : bool := SFltb b a.

(** ** The world the script runs in

    The file system below the working directory, the environment
    variables, what has been printed, the requests made to the model hub,
    the clock and the operating system's source of random bytes. *)

(** A path is the list of its components, the last component first, so
    that [Path.parent] is the tail; the empty list is the working
    directory. *)
Abbreviation path := (list (list N)).

Inductive node := File | Dir.

Record hub_request := {
  hr_repo_id : pystr;
  hr_local_dir : path;
  hr_token : option pystr;
}.

Record world := {
  fs : gmap (list (list N)) node;
  environ : gmap (list N) (list N);
  stdout : list pystr;
  hub_log : list hub_request;
  clock : spec_float;
  entropy : nat -> Z;
  entropy_used : nat;
}.

Definition set_fs (w : world) (f : gmap (list (list N)) node) : world :=
  {| fs := f; environ := environ w; stdout := stdout w; hub_log := hub_log w;
     clock := clock w; entropy := entropy w; entropy_used := entropy_used w |}.

(** ** The monad of the script: state passing with exceptions *)

Definition M (A : Type) : Type := world -> result A * world.

Definition ret {A} (a : A) : M A := fun w => (Ok a, w).

Definition raise {A} (e : exn) : M A := fun w => (Raise e, w).

Definition bind {A B} (m : M A) (k : A -> M B) : M B :=
  fun w =>
    match m w with
    | (Ok a, w') => k a w'
    | (Raise e, w') => (Raise e, w')
    end.

Definition lift {A} (r : result A) : M A := fun w => (r, w).

Declare Scope py_scope.
Delimit Scope py_scope with py.
Notation "x <- m ;; k" := (bind m (fun x => k))
  (at level 100, m at next level, right associativity) : py_scope.
Notation "m ;; k" := (bind m (fun _ => k))
  (at level 100, right associativity) : py_scope.
Open Scope py_scope.

(** ** The file system operations used by [ensure_model] *)

(** What is at a path; the working directory always exists. *)
Definition stat (f : gmap (list (list N)) node) (p : path) : option node :=
  match p with
  | [] => Some Dir
  | _ :: _ => f !! p
  end.

(** [Path.parent]; the working directory is its own parent. *)
Definition parent (p : path) : path := tail p.

(** [str(path)] *)
Definition path_str (p : path) : pystr :=
  match p with
  | [] => lit "."
  | _ :: _ => join (lit "/") (rev p)
  end.

(** [Path.is_dir()] *)
Definition is_dir (p : path) : M bool :=
  fun w => (Ok (match stat (fs w) p with Some Dir => true | _ => false end), w).

(** [os.mkdir(p)]: fails when the path exists, when its parent is missing
    and when its parent is not a directory. *)
Definition os_mkdir (p : path) : M unit :=
  fun w =>
    match stat (fs w) p with
    | Some _ => (Raise FileExistsError, w)
    | None =>
        match stat (fs w) (parent p) with
        | None => (Raise FileNotFoundError, w)
        | Some File => (Raise NotADirectoryError, w)
        | Some Dir => (Ok tt, set_fs w (<[p := Dir]> (fs w)))
        end
    end.

(** The [except OSError] clause of [Path.mkdir]: the error is swallowed
    when [exist_ok] is set and the path is a directory. *)
Definition mkdir_oserror (p : path) (exist_ok : bool) (e : exn) : M unit :=
  d <- is_dir p ;;
  if negb exist_ok || negb d then raise e else ret tt.

(** [Path.mkdir(parents=False, exist_ok=exist_ok)] *)
Definition mkdir_single (p : path) (exist_ok : bool) : M unit :=
  fun w =>
    match os_mkdir p w with
    | (Ok u, w') => (Ok u, w')
    | (Raise FileNotFoundError, w') => (Raise FileNotFoundError, w')
    | (Raise e, w') => mkdir_oserror p exist_ok e w'
    end.

(** [Path.mkdir(parents=parents, exist_ok=exist_ok)]: [os.mkdir] is tried
    first; when the parent is missing and [parents] is set, the parent is
    made with [parents=True, exist_ok=True] and the path is then made
    without [parents]. *)
Fixpoint mkdir (p : path) (parents exist_ok : bool) : M unit :=
  fun w =>
    match os_mkdir p w with
    | (Ok u, w') => (Ok u, w')
    | (Raise FileNotFoundError, w') =>
        match p with
        | [] => (Raise FileNotFoundError, w')
        | _ :: up =>
            if negb parents then (Raise FileNotFoundError, w')
            else (mkdir up true true ;; mkdir_single p exist_ok) w'
        end
    | (Raise e, w') => mkdir_oserror p exist_ok e w'
    end.

(** The entries of a directory: the paths of the file system whose parent
    it is. *)
Definition children (f : gmap (list (list N)) node) (p : path) : list path :=
  filter (fun q => q <> [] /\ tail q = p) (map fst (map_to_list f)).

(** [Path.iterdir()] *)
Definition iterdir (p : path) : M (list path) :=
  fun w =>
    match stat (fs w) p with
    | None => (Raise FileNotFoundError, w)
    | Some File => (Raise NotADirectoryError, w)
    | Some Dir => (Ok (children (fs w) p), w)
    end.

(** [any(xs)] on a sequence of paths: a path is always true. *)
Definition any {A} (xs : list A) : bool :=
  match xs with [] => false | _ :: _ => true end.

(** [os.getenv(name)] *)
Definition getenv (name : string) : M (option pystr) :=
  fun w => (Ok (environ w !! lit name), w).

(** [print(line, flush=True)] *)
Definition print (line : pystr) : M unit :=
  fun w => (Ok tt,
            {| fs := fs w; environ := environ w; stdout := stdout w ++ [line];
               hub_log := hub_log w; clock := clock w; entropy := entropy w;
               entropy_used := entropy_used w |}).

(** ** The model hub

    [snapshot_download] is external to the script.  What it does to the
    file system, and whether it fails, is a parameter; that it was called
    is recorded in the world. *)

Class Hub := {
  hub_fetch : hub_request -> gmap (list (list N)) node ->
              result unit * gmap (list (list N)) node;
}.

Section ModelCache.
Context {hub : Hub}.

Definition snapshot_download (repo_id : pystr) (local_dir : path)
    (token : option pystr) : M unit :=
  fun w =>
    let req := {| hr_repo_id := repo_id; hr_local_dir := local_dir;
                  hr_token := token |} in
    let '(r, f) := hub_fetch req (fs w) in
    (r, {| fs := f; environ := environ w; stdout := stdout w;
           hub_log := hub_log w ++ [req]; clock := clock w;
           entropy := entropy w; entropy_used := entropy_used w |}).

Definition ensure_model (model_repo : pystr) (target_dir : path) : M path :=
  mkdir target_dir true true ;;
  entries <- iterdir target_dir ;;
  if any entries then ret target_dir
  else
    hf_token <- getenv "HF_TOKEN" ;;
    print (lit "Downloading " ++ model_repo ++ lit " to "
           ++ path_str target_dir ++ lit "...") ;;
    snapshot_download model_repo target_dir hf_token ;;
    ret target_dir.

End ModelCache.

(** ** Clock and random identifiers *)

(** [time.time()] *)
Definition time_time : M spec_float := fun w => (Ok (clock w), w).

(** [int.from_bytes(os.urandom(16), "big")]: the next 128 random bits. *)
Definition urandom16 : M Z :=
  fun w =>
    (Ok (Z.land (entropy w (entropy_used w)) (Z.ones 128)),
     {| fs := fs w; environ := environ w; stdout := stdout w;
        hub_log := hub_log w; clock := clock w; entropy := entropy w;
        entropy_used := S (entropy_used w) |}).

(** The version and variant bits that [uuid.UUID(bytes=..., version=4)]
    sets in the 128-bit integer of the identifier. *)
Definition uuid_set_version (n : Z) (version : Z) : Z :=
  let n := Z.land n (Z.lnot (Z.shiftl 49152 48)) in
  let n := Z.lor n (Z.shiftl 32768 48) in
  let n := Z.land n (Z.lnot (Z.shiftl 61440 64)) in
  Z.lor n (Z.shiftl version 76).

(** [uuid.uuid4()], as the integer of the identifier. *)
Definition uuid4 : M Z :=
  n <- urandom16 ;;
  ret (uuid_set_version n 4).

(** The character of a hexadecimal digit, lower case. *)
Definition hex_digit (d : Z) : char :=
  if d <? 10 then Z.to_N (48 + d) else Z.to_N (87 + d).

(** [UUID.hex], that is ['%032x' % n] for the 128-bit integer [n]: its 32
    hexadecimal digits, the most significant first. *)
Definition uuid_hex (n : Z) : pystr :=
  map (fun i => hex_digit (Z.land (Z.shiftr n (4 * Z.of_nat i)) 15))
      (rev (seq 0 32)).

(** ** The runtime: tokenizer and model

    Both are loaded from the transformers library and are external to the
    script.  Generation may fail and may use and change the world (it takes
    time and draws random numbers when it samples). *)

Abbreviation tokens := (list Z).

(** The keyword arguments of [model.generate]. *)
Record generate_args := {
  input_ids : tokens;
  pad_token_id : option Z;
  do_sample : bool;
  temperature : spec_float;
  top_p : spec_float;
  max_new_tokens : Z;
}.

Class Runtime := {
  tokenizer : pystr -> tokens;
  eos_token_id : option Z;
  generate : generate_args -> M tokens;
  decode : tokens -> pystr;
}.

(** ** Requests and responses *)

(** The JSON body of a chat-completion request, at the keys the handler
    reads; [None] is an absent key. *)
Record payload := {
  p_messages : option (list message);
  p_max_tokens : option number;
  p_temperature : option number;
  p_top_p : option number;
}.

(** [payload.get(key, default)] at one of these keys. *)
Definition get {A} (field : option A) (default : A) : A :=
  match field with
  | Some v => v
  | None => default
  end.

Module Resp.

Record chat_message := {
  role : pystr;
  content : pystr;
}.

Record choice := {
  index : Z;
  message : chat_message;
  finish_reason : pystr;
}.

Record usage_block := {
  prompt_tokens : Z;
  completion_tokens : Z;
  total_tokens : Z;
}.

Record response := {
  id : pystr;
  object : pystr;
  created : Z;
  model : pystr;
  choices : list choice;
  usage : usage_block;
}.

End Resp.

(** ** The handler of [POST /v1/chat/completions] *)

Section Completion.
Context {rt : Runtime}.
Variable model_repo : pystr.

(** The part of the handler before generation: the parameters with their
    defaults, the prompt and its tokens, gathered as the arguments of
    [model.generate]. *)
Definition generation_request (body : payload) : M (pystr * generate_args) :=
  let messages := get (p_messages body) [] in
  n <- lift (py_int (get (p_max_tokens body) (Int 128))) ;;
  let max_tokens := Z.max 16 n in
  temperature <- lift (py_float (get (p_temperature body) (Float float_0_7))) ;;
  top_p <- lift (py_float (get (p_top_p body) (Float float_0_8))) ;;
  let prompt := build_prompt messages in
  let inputs := tokenizer prompt in
  ret (prompt,
       {| input_ids := inputs;
          pad_token_id := eos_token_id;
          do_sample := float_gt temperature float_zero;
          temperature := temperature;
          top_p := top_p;
          max_new_tokens := max_tokens |}).

(** The part of the handler after generation. *)
Definition assemble_response (prompt : pystr) (inputs output : tokens)
    : M Resp.response :=
  let decoded := decode output in
  let completion := or_else (strip (slice_from decoded (len prompt))) decoded in
  u <- uuid4 ;;
  let response_id := lit "chatcmpl-" ++ take 12 (uuid_hex u) in
  let finish_reason := lit "stop" in
  let usage :=
    {| Resp.prompt_tokens := Z.of_nat (length inputs);
       Resp.completion_tokens :=
         Z.max 0 (Z.of_nat (length output) - Z.of_nat (length inputs));
       Resp.total_tokens := Z.of_nat (length output) |} in
  now <- time_time ;;
  created <- lift (py_int (Float now)) ;;
  ret {| Resp.id := response_id;
         Resp.object := lit "chat.completion";
         Resp.created := created;
         Resp.model := model_repo;
         Resp.choices :=
           [ {| Resp.index := 0;
                Resp.message := {| Resp.role := lit "assistant";
                                   Resp.content := completion |};
                Resp.finish_reason := finish_reason |} ];
         Resp.usage := usage |}.

Definition chat_completions (body : payload) : M Resp.response :=
  req <- generation_request body ;;
  let prompt := fst req in
  let args := snd req in
  output <- generate args ;;
  assemble_response prompt (input_ids args) output.

End Completion.

(** [format_messages] of [scripts/test_client.py]: a well-formed message
    per (role, content) pair. *)
Definition format_messages (pairs : list (pystr * pystr)) : list message :=
  map (fun rc => <[lit "role" := fst rc]> (<[lit "content" := snd rc]> ∅)) pairs.

(** The line of the prompt that stands for one message: its role, or
    ["user"] when it has none, then a colon and a space, then its content,
    or nothing when it has none. *)
Definition line_of (msg : message) : pystr :=
  match msg !! lit "role" with Some r => r | None => lit "user" end
  ++ lit ": " ++
  match msg !! lit "content" with Some c => c | None => [] end.

(** The same request with another value at the key ["max_tokens"]. *)
Definition with_max_tokens (body : payload) (v : option number) : payload :=
  {| p_messages := p_messages body; p_max_tokens := v;
     p_temperature := p_temperature body; p_top_p := p_top_p body |}.

(** A float that is strictly greater than zero: positive infinity or a
    finite non-zero value of positive sign. *)
Definition strictly_positive (f : spec_float) : bool :=
  match f with
  | S754_infinity false | S754_finite false _ _ => true
  | _ => false
  end.

(** The characters of a lower-case hexadecimal digit. *)
Definition is_lower_hex (c : char) : bool :=
  ((48 <=? c) && (c <=? 57) || (97 <=? c) && (c <=? 102))%N.

(** Two worlds that differ in their file systems only. *)
Definition same_but_fs (w w' : world) : Prop :=
  environ w' = environ w /\ stdout w' = stdout w /\ hub_log w' = hub_log w
  /\ clock w' = clock w /\ entropy w' = entropy w
  /\ entropy_used w' = entropy_used w.

(** ** Contracts of the external collaborators *)

(** The contract of generation: the model is a causal language model
    and [generate] returns the full token sequence, the prompt followed by
    the newly generated tokens.  What the handler relies on is the weaker
    fact that the sequence has at least as many tokens as the prompt. *)
Definition returns_full_sequence (rt : Runtime) : Prop :=
  forall args w output w',
    generate args w = (Ok output, w') ->
    (length (input_ids args) <= length output)%nat.



(** ** A small instance, for examples

    A tokenizer with one token per character, a model that answers
    [" Hi"] whatever it is asked, and a hub that serves one file. *)

Definition char_runtime : Runtime := {|
  tokenizer := map Z.of_N;
  eos_token_id := Some 0;
  generate := fun args w => (Ok (input_ids args ++ [32; 72; 105]), w);
  decode := map Z.to_N;
|}.

Definition one_file_hub : Hub := {|
  hub_fetch := fun req f =>
    (Ok tt, <[lit "config.json" :: hr_local_dir req := File]>
              (<[hr_local_dir req := Dir]> f));
|}.

Definition float_0_9 : spec_float := S754_finite false 8106479329266893 (-53).

(** The request [{"messages": [{"role": "user", "content": "Hi"}],
    "max_tokens": 1, "temperature": 0, "top_p": 0.9}]. *)
Definition hi_request : payload :=
  {| p_messages := Some (format_messages [(lit "user", lit "Hi")]);
     p_max_tokens := Some (Int 1);
     p_temperature := Some (Int 0);
     p_top_p := Some (Float float_0_9) |}.

(** The arguments with which the handler calls the model for it. *)
Definition hi_prompt : pystr := lit "user: Hi" ++ newline ++ lit "assistant:".

Definition hi_args : generate_args :=
  {| input_ids := map Z.of_N hi_prompt;
     pad_token_id := Some 0; do_sample := false;
     temperature := S754_zero false; top_p := float_0_9;
     max_new_tokens := 16 |}.

(** The empty JSON object as a request. *)
Definition empty_request : payload :=
  {| p_messages := None; p_max_tokens := None;
     p_temperature := None; p_top_p := None |}.

(** A world with an empty working directory, at the time 1762200000.5. *)
Definition fresh_world : world :=
  {| fs := ∅; environ := ∅; stdout := []; hub_log := [];
     clock := S754_finite false 7391202510897152 (-22);
     entropy := fun _ => 24197857208548530547204449711730528820;
     entropy_used := 0 |}.

(** The same world after one draw of random bytes. *)
Definition world_after_request : world :=
  {| fs := ∅; environ := ∅; stdout := []; hub_log := [];
     clock := S754_finite false 7391202510897152 (-22);
     entropy := fun _ => 24197857208548530547204449711730528820;
     entropy_used := 1 |}.

Definition tiny_gpt2 : pystr := lit "sshleifer/tiny-gpt2".

(** What the example runtime answers to a conversation. *)
Definition response_to (content : pystr) (prompt_tokens : Z) : Resp.response :=
  {| Resp.id := lit "chatcmpl-12345678abcd";
     Resp.object := lit "chat.completion";
     Resp.created := 1762200000;
     Resp.model := tiny_gpt2;
     Resp.choices :=
       [ {| Resp.index := 0;
            Resp.message := {| Resp.role := lit "assistant";
                               Resp.content := content |};
            Resp.finish_reason := lit "stop" |} ];
     Resp.usage :=
       {| Resp.prompt_tokens := prompt_tokens;
          Resp.completion_tokens := 3;
          Resp.total_tokens := prompt_tokens + 3 |} |}.

Definition tiny_gpt2_dir : path := [lit "sshleifer_tiny-gpt2"; lit "models"].

(** The world after the first call of [ensure_model] in [fresh_world]
    with the example hub. *)
Definition world_after_download : world :=
  {| fs := <[lit "config.json" :: tiny_gpt2_dir := File]>
             (<[tiny_gpt2_dir := Dir]> (<[[lit "models"] := Dir]> ∅));
     environ := ∅;
     stdout := [lit "Downloading sshleifer/tiny-gpt2 to models/sshleifer_tiny-gpt2..."];
     hub_log := [ {| hr_repo_id := tiny_gpt2; hr_local_dir := tiny_gpt2_dir;
                     hr_token := None |} ];
     clock := S754_finite false 7391202510897152 (-22);
     entropy := fun _ => 24197857208548530547204449711730528820;
     entropy_used := 0 |}.

(** ** The download step of [ensure_model] *)




(** What a call of [Path.mkdir] on [p] may do to a file system: every
    path keeps what it had, or had nothing and is now a directory on the
    way to [p]. *)
Definition only_adds_dirs (p : path)
    (f f' : gmap (list (list N)) node) : Prop :=
  forall q : path,
    f' !! q = f !! q
    \/ (f !! q = None /\ f' !! q = Some Dir /\ q `suffix_of` p).

(** ** Effects and identifiers of the handler *)

(** The world after one draw of 16 random bytes. *)
Definition after_draw (w : world) : world :=
  {| fs := fs w; environ := environ w; stdout := stdout w;
     hub_log := hub_log w; clock := clock w; entropy := entropy w;
     entropy_used := S (entropy_used w) |}.

(** The [width] lowest hexadecimal digits of an integer, the most
    significant first. *)
Definition hex_digits (width : nat) (n : Z) : pystr :=
  map (fun i => hex_digit (Z.land (Z.shiftr n (4 * Z.of_nat i)) 15))
      (rev (seq 0 width)).

(** A runtime whose model appends tokens to the prompt. *)
Definition appends_tokens (rt : Runtime) : Prop :=
  forall args w output w',
    generate args w = (Ok output, w') ->
    exists new, output = input_ids args ++ new.

(** A runtime whose decoder gives back the text of a tokenized prompt,
    followed by the text of the tokens after it. *)
Definition decodes_after_prompt (rt : Runtime) : Prop :=
  forall (prompt : pystr) (new : tokens),
    decode (tokenizer prompt ++ new) = prompt ++ decode new.

(** ** The default cache directory of [create_app] *)

(** [s.replace(old, new)] for a one-character [old]. *)
Definition replace_char (old : char) (new s : pystr) : pystr :=
  flat_map (fun c => if (c =? old)%N then new else [c]) s.

(** [s.split(sep)] for a one-character [sep]. *)
Fixpoint split_char (sep : char) (s : pystr) : list pystr :=
  match s with
  | [] => [[]]
  | c :: rest =>
      if (c =? sep)%N then [] :: split_char sep rest
      else match split_char sep rest with
           | [] => [[c]]
           | seg :: segs => (c :: seg) :: segs
           end
  end.

(** The components of a path written as a string: the segments between
    slashes, without the empty ones and the ones that are ["."]. *)
Definition path_parts (s : pystr) : list pystr :=
  filter (fun seg => seg <> [] /\ seg <> lit ".") (split_char 47 s).

(** [base / s] for a string [s] that does not start with a slash. *)
Definition path_div (base : path) (s : pystr) : path :=
  rev (path_parts s) ++ base.

(** [Path("models") / model_repo.replace("/", "_")] *)
Definition default_cache (model_repo : pystr) : path :=
  path_div [lit "models"] (replace_char 47 (lit "_") model_repo).

(** ** The client scripts: [scripts/test_client.py] and [tests/test_api.py] *)

Module Client.

(** How a wait for the server ends: it returns, it raises [RuntimeError]
    with a message, or [time.sleep] raises. *)
Inductive outcome :=
| Returned
| RuntimeError (msg : pystr)
| Raised (e : exn).

(** The world of a client: what the requests to a URL meet, one after the
    other ([None] is an answer with a success status, [Some exc] a
    [RequestException] with its text), the number of requests made, the
    delays slept and the lines printed. *)
Record net := {
  health : pystr -> nat -> option pystr;
  requests_made : nat;
  slept : list spec_float;
  printed : list pystr;
}.

(** [requests.get(url, timeout=2)] followed by [raise_for_status()] *)
Definition get_ok (url : pystr) (s : net) : option pystr * net :=
  (health s url (requests_made s),
   {| health := health s; requests_made := S (requests_made s);
      slept := slept s; printed := printed s |}).

(** The floats [1e9] and [2.0 ** 63]. *)
Definition float_1e9 : spec_float := S754_finite false 8388608000000000 (-23).
Definition float_2p63 : spec_float := S754_finite false 4503599627370496 11.

(** The exception that [time.sleep(delay)] raises, if any.  The delay is
    converted to a number of nanoseconds in a signed 64-bit integer: a NaN
    raises [ValueError], a product with [1e9] outside of the range of
    these integers raises [OverflowError], and a negative number of
    nanoseconds raises [ValueError]. *)
Definition sleep_error (delay : spec_float) : option exn :=
  match delay with
  | S754_nan => Some ValueError
  | _ =>
      let ns := SFmul prec64 emax64 delay float_1e9 in
      if SFleb float_2p63 ns || SFltb ns (SFopp float_2p63)
      then Some OverflowError
      else if SFltb delay (S754_zero false) then Some ValueError
      else None
  end.

(** [time.sleep(delay)], for a delay that it accepts. *)
Definition sleep (delay : spec_float) (s : net) : net :=
  {| health := health s; requests_made := requests_made s;
     slept := slept s ++ [delay]; printed := printed s |}.


(** [str(n)] for an int. *)
Definition str_of_int (n : Z) : pystr :=
  lit (NilZero.string_of_int (Z.to_int n)).

(** The loop of [wait_for_health], with the number of rounds left. *)
Fixpoint health_rounds (url : pystr) (delay : spec_float) (rounds : nat)
    (s : net) : outcome * net :=
  match rounds with
  | O => (RuntimeError (lit "Server failed to become healthy."), s)
  | S rounds' =>
      match get_ok (url ++ lit "/health") s with
      | (None, s') => (Returned, s')
      | (Some _, s') =>
          match sleep_error delay with
          | Some e => (Raised e, s')
          | None => health_rounds url delay rounds' (sleep delay s')
          end
      end
  end.

(** [wait_for_health] of [tests/test_api.py]: [range(retries)] has
    [max(0, retries)] elements. *)
Definition wait_for_health (url : pystr) (retries : Z) (delay : spec_float)
    (s : net) : outcome * net :=
  health_rounds url delay (Z.to_nat retries) s.



(** The floats [0.5] and [1.0], the default delays. *)
Definition float_0_5 : spec_float := S754_finite false 4503599627370496 (-53).
Definition float_1_0 : spec_float := S754_finite false 4503599627370496 (-52).

(** [s.lstrip(chars)] and [s.rstrip(chars)]: the characters of [chars]
    are removed at the end, whatever their order. *)
Fixpoint lstrip_chars (chars s : pystr) : pystr :=
  match s with
  | [] => []
  | c :: rest =>
      if existsb (N.eqb c) chars then lstrip_chars chars rest else s
  end.

Definition rstrip_chars (chars s : pystr) : pystr :=
  rev (lstrip_chars chars (rev s)).

(** The URL that [main] waits for: [base_url.rstrip("/v1")]. *)
Definition health_base (base_url : pystr) : pystr :=
  rstrip_chars (lit "/v1") base_url.

(** [f"http://{host}:{port}"] *)
Definition local_url (host : pystr) (port : Z) : pystr :=
  lit "http://" ++ host ++ lit ":" ++ str_of_int port.

(** A server that answers the third request to its health URL. *)
Definition slow_start : net :=
  {| health := fun url i => if (i <? 2)%nat then Some (lit "refused") else None;
     requests_made := 0; slept := []; printed := [] |}.


End Client.

(** The world of a client after some requests and some sleeps of the
    same delay, and after some lines were printed. *)
Definition after_waiting (s : Client.net) (requests sleeps : nat)
    (delay : spec_float) (lines : list pystr) : Client.net :=
  {| Client.health := Client.health s;
     Client.requests_made := Client.requests_made s + requests;
     Client.slept := Client.slept s ++ repeat delay sleeps;
     Client.printed := Client.printed s ++ lines |}.




(** The message [{"role": r, "content": c}]. *)
Definition msg_of (r c : pystr) : message :=
  <[lit "role" := r]> (<[lit "content" := c]> ∅).



(** A runtime like the example one whose model fails. *)
Definition failing_runtime : Runtime := {|
  tokenizer := map Z.of_N;
  eos_token_id := Some 0;
  generate := fun args w => (Raise (ExternalFault 1), w);
  decode := map Z.to_N;
|}.

(** A world whose working directory holds a regular file [models]. *)
Definition world_with_models_file : world :=
  {| fs := <[[lit "models"] := File]> ∅;
     environ := ∅; stdout := []; hub_log := [];
     clock := S754_finite false 7391202510897152 (-22);
     entropy := fun _ => 24197857208548530547204449711730528820;
     entropy_used := 0 |}.

(** The directories that [ensure_model] makes for the example target. *)
Definition cache_directories : gmap (list (list N)) node :=
  <[tiny_gpt2_dir := Dir]> (<[[lit "models"] := Dir]> ∅).

(** A request whose [max_tokens] is a NaN. *)
Definition nan_request : payload :=
  {| p_messages := None; p_max_tokens := Some (Float S754_nan);
     p_temperature := None; p_top_p := None |}.

(** * Properties *)

(** ** Strings *)

Section StringFacts.

Lemma join_cons sep (p : pystr) (rest : list pystr) :
  rest <> [] -> join sep (p :: rest) = p ++ sep ++ join sep rest.
Proof. destruct rest; [congruence | reflexivity]. Qed.

Lemma join_snoc sep (parts : list pystr) (x : pystr) :
  join sep (parts ++ [x])
  = match parts with [] => [] | _ :: _ => join sep parts ++ sep end ++ x.
Proof.
  induction parts as [|p rest IH]; [reflexivity|].
  change ((p :: rest) ++ [x]) with (p :: (rest ++ [x])).
  rewrite join_cons by (destruct rest; discriminate).
  rewrite IH. destruct rest as [|q rest].
  - simpl. now rewrite <- app_assoc.
  - rewrite (join_cons sep p (q :: rest)) by discriminate.
    now rewrite <- !app_assoc.
Qed.

Lemma lstrip_decompose (s : pystr) :
  exists l, s = l ++ lstrip s /\ forallb is_space l = true.
Proof.
  induction s as [|c s [l [Hs Hl]]]; [now exists []|].
  simpl. destruct (is_space c) eqn:Hc.
  - exists (c :: l). simpl. rewrite Hc, Hl. split; [congruence | reflexivity].
  - now exists [].
Qed.

Lemma lstrip_head (s : pystr) c rest :
  lstrip s = c :: rest -> is_space c = false.
Proof.
  induction s as [|d s IH]; simpl; [discriminate|].
  destruct (is_space d) eqn:Hd; [exact IH|].
  intros [= -> _]. exact Hd.
Qed.

Lemma forallb_rev {A} (f : A -> bool) (l : list A) :
  forallb f (rev l) = forallb f l.
Proof.
  induction l as [|a l IH]; [reflexivity|].
  simpl. rewrite forallb_app, IH. simpl. rewrite andb_true_r. apply andb_comm.
Qed.

Lemma rstrip_decompose (s : pystr) :
  exists r, s = rstrip s ++ r /\ forallb is_space r = true.
Proof.
  unfold rstrip. destruct (lstrip_decompose (rev s)) as [l [Hs Hl]].
  exists (rev l). split.
  - rewrite <- rev_app_distr, <- Hs. symmetry. apply rev_involutive.
  - now rewrite forallb_rev.
Qed.

Lemma rstrip_last (s : pystr) c front :
  rstrip s = front ++ [c] -> is_space c = false.
Proof.
  unfold rstrip. intros H.
  apply (f_equal (@rev N)) in H. rewrite rev_involutive, rev_app_distr in H.
  simpl in H. now apply lstrip_head in H.
Qed.

Lemma lstrip_keeps_last (c : char) (s : pystr) :
  is_space c = false -> exists front, lstrip (s ++ [c]) = front ++ [c].
Proof.
  intros Hc. induction s as [|d s [front IH]]; simpl.
  - rewrite Hc. now exists [].
  - destruct (is_space d).
    + now exists front.
    + now exists (d :: s).
Qed.

(** [rstrip] removes characters at the end only: what starts with a
    character that is not white space keeps that first character. *)
Lemma rstrip_keeps_head (c : char) (rest : pystr) :
  is_space c = false -> exists rest', rstrip (c :: rest) = c :: rest'.
Proof.
  intros Hc. unfold rstrip.
  change (rev (c :: rest)) with (rev rest ++ [c]).
  destruct (lstrip_keeps_last c (rev rest) Hc) as [front Hf].
  rewrite Hf. exists (rev front). now rewrite rev_app_distr.
Qed.

(** What [strip] computes: the string is the result between two runs of
    white space, and the result, when it is not empty, starts and ends with
    a character that is not white space. *)
Lemma strip_decompose (s : pystr) :
  exists l r,
    s = l ++ strip s ++ r /\
    forallb is_space l = true /\ forallb is_space r = true /\
    (forall c rest, strip s = c :: rest -> is_space c = false) /\
    (forall c front, strip s = front ++ [c] -> is_space c = false).
Proof.
  unfold strip.
  destruct (lstrip_decompose s) as [l [Hs Hl]].
  destruct (rstrip_decompose (lstrip s)) as [r [Hm Hr]].
  exists l, r. repeat split; try assumption.
  - now rewrite <- Hm.
  - intros c rest.
    destruct (lstrip s) as [|d t] eqn:Hd; [discriminate|].
    pose proof (lstrip_head _ _ _ Hd) as Hsp.
    destruct (rstrip_keeps_head d t Hsp) as [rest' H'].
    rewrite H'. congruence.
  - intros c front H. now apply rstrip_last in H.
Qed.

Lemma or_else_spec (a b : pystr) :
  or_else a b = match a with [] => b | _ :: _ => a end.
Proof. now destruct a. Qed.

Lemma slice_from_len (s prompt : pystr) :
  slice_from s (len prompt) = drop (length prompt) s.
Proof.
  unfold slice_from, len.
  destruct (Z.leb_spec 0 (Z.of_nat (length prompt))); [|lia].
  now rewrite Nat2Z.id.
Qed.

End StringFacts.

(** ** The prompt builder *)

Section PromptFacts.

(** The loop of [build_prompt] appends the lines of the messages, in
    order, to the transcript it starts from. *)
Lemma transcript_loop (messages : list message) (transcript : list pystr) :
  fold_left (fun transcript msg => transcript ++ [render_message msg])
            messages transcript
  = transcript ++ map line_of messages.
Proof.
  revert transcript.
  induction messages as [|msg rest IH]; intros transcript; simpl.
  - now rewrite app_nil_r.
  - rewrite IH, <- app_assoc. reflexivity.
Qed.

Lemma build_prompt_join (messages : list message) :
  build_prompt messages
  = join newline (map line_of messages ++ [lit "assistant:"]).
Proof. unfold build_prompt. now rewrite transcript_loop. Qed.

Lemma build_prompt_cons (msg : message) (rest : list message) :
  build_prompt (msg :: rest) = line_of msg ++ newline ++ build_prompt rest.
Proof.
  rewrite !build_prompt_join. simpl map.
  change ((line_of msg :: map line_of rest) ++ [lit "assistant:"])
    with (line_of msg :: (map line_of rest ++ [lit "assistant:"])).
  apply join_cons. destruct (map line_of rest); discriminate.
Qed.

Lemma line_of_format (r c : pystr) :
  line_of (<[lit "role" := r]> (<[lit "content" := c]> ∅)) = r ++ lit ": " ++ c.
Proof.
  unfold line_of. rewrite lookup_insert_eq.
  rewrite lookup_insert_ne by (vm_compute; discriminate).
  now rewrite lookup_insert_eq.
Qed.

(** C3: for every sequence of messages, the empty one included,
    [build_prompt] returns the lines ["{role}: {content}"] of the messages,
    in their order, followed by the line ["assistant:"], joined with
    newline characters.  The prompt ends with ["assistant:"], so that no
    newline follows the last line, and the empty sequence gives exactly
    ["assistant:"].  For messages built from (role, content) pairs, the
    line of a message is its role, [": "] and its content.  Without
    [join]: the prompt of a conversation is the line of its first message,
    a newline and the prompt of the other messages, so that it is the
    lines of the messages, each followed by a newline, and then
    ["assistant:"]. *)
Theorem build_prompt_lines :
  forall messages : list message,
    build_prompt messages
    = join newline (map line_of messages ++ [lit "assistant:"])
    /\ (exists before, build_prompt messages = before ++ lit "assistant:")
    /\ build_prompt [] = lit "assistant:"
    /\ (forall pairs : list (pystr * pystr),
          build_prompt (format_messages pairs)
          = join newline
              (map (fun rc => fst rc ++ lit ": " ++ snd rc) pairs
               ++ [lit "assistant:"]))
    /\ (forall (msg : message) (rest : list message),
          build_prompt (msg :: rest)
          = line_of msg ++ newline ++ build_prompt rest)
    /\ (forall (r c : pystr) (pairs : list (pystr * pystr)),
          build_prompt (format_messages ((r, c) :: pairs))
          = r ++ lit ": " ++ c ++ newline
            ++ build_prompt (format_messages pairs))
    /\ build_prompt messages
       = concat (map (fun msg => line_of msg ++ [10%N]) messages)
         ++ lit "assistant:".
Proof.
  intros messages. split; [apply build_prompt_join|].
  split; [|split; [|split; [|split; [|split]]]].
  - rewrite build_prompt_join, join_snoc. eauto.
  - reflexivity.
  - intros pairs. rewrite build_prompt_join. do 2 f_equal.
    unfold format_messages. rewrite map_map. apply map_ext.
    intros [r c]. apply line_of_format.
  - apply build_prompt_cons.
  - intros r c pairs. unfold format_messages. cbn [map fst snd].
    rewrite build_prompt_cons, line_of_format. now rewrite <- !app_assoc.
  - induction messages as [|m rest IH]; [reflexivity|].
    rewrite build_prompt_cons, IH. cbn [map concat].
    now rewrite <- !app_assoc.
Qed.

(** C7: [build_prompt] is defined on every sequence of message records,
    whichever of their fields are absent.  A message without a role is
    rendered with the role ["user"], a message without content with the
    empty string as content, and the line of every message of the
    sequence is in the prompt, between the lines of the messages before
    it and those of the messages after it. *)
Theorem build_prompt_absent_fields :
  forall (before after : list message) (msg : message),
    (exists prompt, build_prompt (before ++ msg :: after) = prompt)
    /\ build_prompt (before ++ msg :: after)
       = join newline (map line_of before ++ [line_of msg]
                       ++ map line_of after ++ [lit "assistant:"])
    /\ line_of (delete (lit "role") msg)
       = lit "user: " ++ dict_get msg "content" (lit "")
    /\ line_of (delete (lit "content") msg)
       = dict_get msg "role" (lit "user") ++ lit ": "
    /\ line_of (∅ : message) = lit "user: "
    /\ build_prompt [∅] = lit "user: " ++ newline ++ lit "assistant:".
Proof.
  intros before after msg. split; [eauto|]. split; [|split; [|split]].
  - rewrite build_prompt_join, map_app. simpl map.
    now rewrite <- !app_assoc.
  - unfold line_of, dict_get. rewrite lookup_delete_eq.
    rewrite lookup_delete_ne by (vm_compute; discriminate).
    reflexivity.
  - unfold line_of, dict_get. rewrite lookup_delete_eq.
    rewrite lookup_delete_ne by (vm_compute; discriminate).
    now rewrite app_nil_r.
  - split; reflexivity.
Qed.

End PromptFacts.

(** ** The monad *)

Section MonadFacts.

Lemma bind_Ok {A B} (m : M A) (k : A -> M B) w b w' :
  bind m k w = (Ok b, w') ->
  exists a w1, m w = (Ok a, w1) /\ k a w1 = (Ok b, w').
Proof.
  unfold bind. destruct (m w) as [[a|e] w1]; [eauto | discriminate].
Qed.

Lemma bind_step {A B} (m : M A) (k : A -> M B) w a w1 :
  m w = (Ok a, w1) -> bind m k w = k a w1.
Proof. unfold bind. now intros ->. Qed.

Lemma lift_Ok {A} (r : result A) w a w' :
  lift r w = (Ok a, w') -> r = Ok a /\ w' = w.
Proof. unfold lift. now intros [= -> ->]. Qed.

Lemma ret_Ok {A} (x : A) w a w' :
  ret x w = (Ok a, w') -> a = x /\ w' = w.
Proof. unfold ret. now intros [= -> ->]. Qed.

End MonadFacts.

Tactic Notation "bind_inv" hyp(H) "as" ident(a) ident(w) ident(Hm) :=
  apply bind_Ok in H as (a & w & Hm & H).

(** ** The handler *)

Section CompletionFacts.
Context {rt : Runtime}.
Variable model_repo : pystr.

(** What the handler computes before it calls the model: the world is
    left as it was, and the arguments of [model.generate] are built from
    the converted parameters. *)
Lemma generation_request_Ok body w prompt args w' :
  generation_request body w = (Ok (prompt, args), w') ->
  exists n t p,
    py_int (get (p_max_tokens body) (Int 128)) = Ok n /\
    py_float (get (p_temperature body) (Float float_0_7)) = Ok t /\
    py_float (get (p_top_p body) (Float float_0_8)) = Ok p /\
    w' = w /\
    prompt = build_prompt (get (p_messages body) []) /\
    args = {| input_ids := tokenizer prompt;
              pad_token_id := eos_token_id;
              do_sample := float_gt t float_zero;
              temperature := t;
              top_p := p;
              max_new_tokens := Z.max 16 n |}.
Proof.
  unfold generation_request. intros H.
  bind_inv H as n w1 Hn. apply lift_Ok in Hn as [Hn ->].
  bind_inv H as t w2 Ht. apply lift_Ok in Ht as [Ht ->].
  bind_inv H as p w3 Hp. apply lift_Ok in Hp as [Hp ->].
  apply ret_Ok in H as [H ->]. injection H as -> ->.
  exists n, t, p. repeat split; assumption.
Qed.

(** The handler answers whenever the parameters convert: the request
    part cannot fail otherwise. *)
Lemma generation_request_total body w n t p :
  py_int (get (p_max_tokens body) (Int 128)) = Ok n ->
  py_float (get (p_temperature body) (Float float_0_7)) = Ok t ->
  py_float (get (p_top_p body) (Float float_0_8)) = Ok p ->
  exists prompt args, generation_request body w = (Ok (prompt, args), w).
Proof.
  intros Hn Ht Hp. unfold generation_request, bind, lift, ret.
  rewrite Hn, Ht, Hp. eauto.
Qed.

Lemma assemble_response_Ok prompt inputs output w resp w' :
  assemble_response model_repo prompt inputs output w = (Ok resp, w') ->
  exists created,
    py_int (Float (clock w)) = Ok created /\
    resp =
      {| Resp.id :=
           lit "chatcmpl-"
           ++ take 12 (uuid_hex (uuid_set_version
                 (Z.land (entropy w (entropy_used w)) (Z.ones 128)) 4));
         Resp.object := lit "chat.completion";
         Resp.created := created;
         Resp.model := model_repo;
         Resp.choices :=
           [ {| Resp.index := 0;
                Resp.message :=
                  {| Resp.role := lit "assistant";
                     Resp.content :=
                       or_else (strip (slice_from (decode output) (len prompt)))
                               (decode output) |};
                Resp.finish_reason := lit "stop" |} ];
         Resp.usage :=
           {| Resp.prompt_tokens := Z.of_nat (length inputs);
              Resp.completion_tokens :=
                Z.max 0 (Z.of_nat (length output) - Z.of_nat (length inputs));
              Resp.total_tokens := Z.of_nat (length output) |} |}.
Proof.
  unfold assemble_response, uuid4. intros H.
  bind_inv H as u w1 Hu. bind_inv Hu as r w2 Hr. unfold urandom16 in Hr.
  injection Hr as <- <-. apply ret_Ok in Hu as [-> ->].
  bind_inv H as now w3 Hnow. unfold time_time in Hnow. injection Hnow as <- <-.
  bind_inv H as created w4 Hc. apply lift_Ok in Hc as [Hc ->].
  apply ret_Ok in H as [-> _].
  exists created. split; [exact Hc | reflexivity].
Qed.

(** The response is assembled whenever the clock shows a finite time. *)
Lemma assemble_response_total prompt inputs output w :
  (exists s m e, clock w = S754_finite s m e) ->
  exists resp w', assemble_response model_repo prompt inputs output w = (Ok resp, w').
Proof.
  intros (s & m & e & Hc).
  unfold assemble_response, uuid4, urandom16, time_time, bind, lift, ret.
  simpl. rewrite Hc. simpl. eauto.
Qed.

(** A response of the handler: the request part succeeded, the model
    returned a token sequence, and the response was assembled from it. *)
Lemma chat_completions_Ok body w resp w' :
  chat_completions model_repo body w = (Ok resp, w') ->
  exists prompt args output w1,
    generation_request body w = (Ok (prompt, args), w) /\
    generate args w = (Ok output, w1) /\
    assemble_response model_repo prompt (input_ids args) output w1 = (Ok resp, w').
Proof.
  unfold chat_completions. intros H.
  bind_inv H as req w1 Hreq. destruct req as [prompt args].
  pose proof (generation_request_Ok _ _ _ _ _ Hreq) as (n & t & p & _ & _ & _ & -> & _).
  bind_inv H as output w2 Hout. simpl in *. eauto 10.
Qed.

(** The handler returns a response whenever the parameters convert, the
    model returns and the clock then shows a finite time. *)
Lemma chat_completions_total body w prompt args output w1 :
  generation_request body w = (Ok (prompt, args), w) ->
  generate args w = (Ok output, w1) ->
  (exists s m e, clock w1 = S754_finite s m e) ->
  exists resp w', chat_completions model_repo body w = (Ok resp, w').
Proof.
  intros Hreq Hgen Hclock. unfold chat_completions.
  rewrite (bind_step _ _ _ _ _ Hreq). simpl.
  rewrite (bind_step _ _ _ _ _ Hgen).
  now apply assemble_response_total.
Qed.

(** The handler calls the model with the arguments of the request part. *)
Lemma chat_completions_calls body w prompt args w' :
  generation_request body w = (Ok (prompt, args), w') ->
  chat_completions model_repo body w
  = (output <- generate args ;;
     assemble_response model_repo prompt (input_ids args) output) w'.
Proof.
  intros H. unfold chat_completions. now rewrite (bind_step _ _ _ _ _ H).
Qed.

End CompletionFacts.

(** ** Request parameters *)

Section ParameterFacts.
Context {rt : Runtime}.
Variable model_repo : pystr.

Lemma float_gt_zero (t : spec_float) :
  float_gt t float_zero = strictly_positive t.
Proof. destruct t as [s|s| |s m e]; try destruct s; reflexivity. Qed.

Lemma strictly_positive_compare (t : spec_float) :
  strictly_positive t = true <-> SFcompare t float_zero = Some Gt.
Proof.
  destruct t as [s|s| |s m e]; try destruct s; simpl; split;
    congruence || discriminate.
Qed.

(** An int that is not positive converts to a float that is not
    strictly positive. *)
Lemma py_float_int_nonpositive (z : Z) (f : spec_float) :
  z <= 0 -> py_float (Int z) = Ok f -> strictly_positive f = false.
Proof.
  intros Hz. simpl. destruct z as [|q|q]; [|lia|].
  - simpl. now intros [= <-].
  - unfold binary_normalize, binary_round, binary_round_aux.
    destruct (shl_align _ _ _) as [mz ez].
    destruct (shr_fexp _ _ _ _ _) as [mrs' e'].
    destruct (shr_fexp _ _ (round_nearest_even _ _) _ _) as [mrs'' e''].
    destruct (shr_m mrs'') as [|k|k]; try destruct (e'' <=? _);
      try discriminate; now intros [= <-].
Qed.

(** C4: the handler calls the model with [max_new_tokens] equal to the
    maximum of 16 and the requested [max_tokens], where 128 stands for an
    absent [max_tokens]; a request for 1 token is answered as the same
    request for 16 tokens is.  An absent [temperature] is passed as 0.7,
    an absent [top_p] as 0.8, and absent [messages] are the empty
    sequence, whose prompt is ["assistant:"]. *)
Theorem generation_parameters :
  forall body w prompt args w',
    generation_request body w = (Ok (prompt, args), w') ->
    chat_completions model_repo body w
    = (output <- generate args ;;
       assemble_response model_repo prompt (input_ids args) output) w'
    /\ (forall n, p_max_tokens body = Some (Int n) ->
                  max_new_tokens args = Z.max 16 n)
    /\ (p_max_tokens body = None -> max_new_tokens args = 128)
    /\ (p_max_tokens body = Some (Int 1) -> max_new_tokens args = 16)
    /\ chat_completions model_repo (with_max_tokens body (Some (Int 1))) w
       = chat_completions model_repo (with_max_tokens body (Some (Int 16))) w
    /\ (p_temperature body = None -> temperature args = float_0_7)
    /\ (p_top_p body = None -> top_p args = float_0_8)
    /\ (p_messages body = None ->
        prompt = lit "assistant:"
        /\ input_ids args = tokenizer (build_prompt [])).
Proof.
  intros body w prompt args w' H.
  split; [now apply chat_completions_calls|].
  apply generation_request_Ok in H
    as (n & t & p & Hn & Ht & Hp & -> & -> & ->).
  simpl. split_and!.
  - intros k Hk. rewrite Hk in Hn. simpl in Hn. congruence.
  - intros Hk. rewrite Hk in Hn. simpl in Hn. injection Hn as <-. reflexivity.
  - intros Hk. rewrite Hk in Hn. simpl in Hn. injection Hn as <-. reflexivity.
  - reflexivity.
  - intros Hk. rewrite Hk in Ht. simpl in Ht. congruence.
  - intros Hk. rewrite Hk in Hp. simpl in Hp. congruence.
  - intros Hk. now rewrite Hk.
Qed.

(** C5: the handler calls the model with [do_sample] set exactly when the
    temperature it passes is strictly greater than zero.  A temperature
    of zero, as a float of either sign or as the int 0, turns sampling
    off; the default temperature turns it on. *)
Theorem sampling_flag :
  forall body w prompt args w',
    generation_request body w = (Ok (prompt, args), w') ->
    chat_completions model_repo body w
    = (output <- generate args ;;
       assemble_response model_repo prompt (input_ids args) output) w'
    /\ py_float (get (p_temperature body) (Float float_0_7))
       = Ok (temperature args)
    /\ do_sample args = strictly_positive (temperature args)
    /\ (do_sample args = true
        <-> SFcompare (temperature args) float_zero = Some Gt)
    /\ (forall s, temperature args = S754_zero s -> do_sample args = false)
    /\ (p_temperature body = Some (Int 0) -> do_sample args = false)
    /\ (p_temperature body = None -> do_sample args = true).
Proof.
  intros body w prompt args w' H.
  split; [now apply chat_completions_calls|].
  apply generation_request_Ok in H
    as (n & t & p & Hn & Ht & Hp & -> & -> & ->).
  simpl. rewrite float_gt_zero. split_and!.
  - exact Ht.
  - reflexivity.
  - apply strictly_positive_compare.
  - now intros s ->.
  - intros Hk. rewrite Hk in Ht. vm_compute in Ht. now injection Ht as <-.
  - intros Hk. rewrite Hk in Ht. simpl in Ht. now injection Ht as <-.
Qed.

End ParameterFacts.

(** ** Responses *)

Section ResponseFacts.
Context {rt : Runtime}.
Variable model_repo : pystr.

Lemma land_15_range (x : Z) : 0 <= Z.land x 15 < 16.
Proof.
  change 15 with (Z.ones 4). rewrite Z.land_ones by lia.
  apply Z.mod_pos_bound. reflexivity.
Qed.

Lemma hex_digit_lower (d : Z) :
  0 <= d < 16 -> is_lower_hex (hex_digit d) = true.
Proof.
  intros Hd. unfold hex_digit, is_lower_hex.
  destruct (Z.ltb_spec d 10).
  - apply orb_true_intro. left. apply andb_true_intro.
    split; apply N.leb_le; lia.
  - apply orb_true_intro. right. apply andb_true_intro.
    split; apply N.leb_le; lia.
Qed.

Lemma uuid_hex_length (n : Z) : length (uuid_hex n) = 32%nat.
Proof. unfold uuid_hex. now rewrite length_map, length_rev, length_seq. Qed.

Lemma uuid_hex_lower (n : Z) : forallb is_lower_hex (uuid_hex n) = true.
Proof.
  unfold uuid_hex. apply forallb_forall. intros c Hc.
  apply in_map_iff in Hc as (i & <- & _).
  apply hex_digit_lower, land_15_range.
Qed.

Lemma forallb_take {A} (f : A -> bool) (k : nat) (l : list A) :
  forallb f l = true -> forallb f (take k l) = true.
Proof.
  revert k. induction l as [|a l IH]; intros [|k]; simpl; try reflexivity.
  intros H. apply andb_prop in H as [Ha Hl]. now rewrite Ha, IH.
Qed.

(** C1: in every response of the handler, [prompt_tokens] is the number
    of tokens of the prompt, [total_tokens] the number of tokens the model
    returned, and [completion_tokens] their difference clamped at zero, so
    that it is never negative; all this for every runtime.  [total_tokens]
    is the sum of [prompt_tokens] and [completion_tokens] exactly when the
    model returned at least as many tokens as the prompt has, hence in
    every response over a runtime whose model returns the prompt followed
    by the new tokens. *)
Theorem usage_accounting :
  forall body w resp w',
    chat_completions model_repo body w = (Ok resp, w') ->
    let u := Resp.usage resp in
    exists args output w1,
      generate args w = (Ok output, w1)
      /\ input_ids args = tokenizer (build_prompt (get (p_messages body) []))
      /\ Resp.prompt_tokens u = Z.of_nat (length (input_ids args))
      /\ Resp.total_tokens u = Z.of_nat (length output)
      /\ Resp.completion_tokens u
         = Z.max 0 (Resp.total_tokens u - Resp.prompt_tokens u)
      /\ Resp.completion_tokens u >= 0
      /\ (Resp.total_tokens u
          = Resp.prompt_tokens u + Resp.completion_tokens u
          <-> (length (input_ids args) <= length output)%nat)
      /\ (returns_full_sequence rt ->
          Resp.total_tokens u
          = Resp.prompt_tokens u + Resp.completion_tokens u).
Proof.
  intros body w resp w' H.
  apply chat_completions_Ok in H as (prompt & args & output & w1 & Hreq & Hgen & H).
  apply assemble_response_Ok in H as (created & _ & ->).
  apply generation_request_Ok in Hreq as (n & t & p & _ & _ & _ & _ & -> & Hargs).
  exists args, output, w1. cbn [Resp.usage Resp.prompt_tokens
    Resp.completion_tokens Resp.total_tokens].
  split; [exact Hgen|]. split; [rewrite Hargs; reflexivity|].
  split; [reflexivity|]. split; [reflexivity|]. split; [reflexivity|].
  split; [lia|]. split; [lia|].
  intros Hrt. pose proof (Hrt _ _ _ _ Hgen) as Hlen. lia.
Qed.

(** The clamp of [completion_tokens] at zero: when the model returns
    fewer tokens than the prompt has, the sum of [prompt_tokens] and
    [completion_tokens] exceeds [total_tokens]. *)
Lemma usage_clamped prompt inputs output w resp w' :
  assemble_response model_repo prompt inputs output w = (Ok resp, w') ->
  (length output < length inputs)%nat ->
  Resp.completion_tokens (Resp.usage resp) = 0
  /\ Resp.total_tokens (Resp.usage resp)
     < Resp.prompt_tokens (Resp.usage resp)
       + Resp.completion_tokens (Resp.usage resp).
Proof.
  intros H Hlt. apply assemble_response_Ok in H as (created & _ & ->).
  simpl. lia.
Qed.

(** C2: in every response of the handler, the content of the first
    choice is the decoded output without its first [len(prompt)]
    characters and without the white space at both ends of what remains;
    when nothing remains, it is the whole decoded output. *)
Theorem completion_extraction :
  forall body w resp w',
    chat_completions model_repo body w = (Ok resp, w') ->
    exists args output w1 c,
      generate args w = (Ok output, w1)
      /\ Resp.choices resp !! 0%nat = Some c
      /\ let prompt := build_prompt (get (p_messages body) []) in
         let decoded := decode output in
         let rest := strip (drop (length prompt) decoded) in
         Resp.content (Resp.message c)
         = match rest with [] => decoded | _ :: _ => rest end
         /\ exists l r,
              drop (length prompt) decoded = l ++ rest ++ r
              /\ forallb is_space l = true
              /\ forallb is_space r = true
              /\ (forall x xs, rest = x :: xs -> is_space x = false)
              /\ (forall x xs, rest = xs ++ [x] -> is_space x = false).
Proof.
  intros body w resp w' H.
  apply chat_completions_Ok in H as (prompt & args & output & w1 & Hreq & Hgen & H).
  apply assemble_response_Ok in H as (created & _ & ->).
  apply generation_request_Ok in Hreq as (n & t & p & _ & _ & _ & _ & -> & _).
  eexists args, output, w1, _. split; [exact Hgen|]. split; [reflexivity|].
  simpl. rewrite slice_from_len, or_else_spec. split; [reflexivity|].
  apply strip_decompose.
Qed.

(** C9: in every response of the handler, the content of the first choice
    is the empty string exactly when the decoded output is the empty
    string: whenever the decoded output has a character, so has the
    content. *)
Theorem completion_empty_iff :
  forall body w resp w',
    chat_completions model_repo body w = (Ok resp, w') ->
    exists args output w1 c,
      generate args w = (Ok output, w1)
      /\ Resp.choices resp !! 0%nat = Some c
      /\ (Resp.content (Resp.message c) = [] <-> decode output = [])
      /\ (decode output <> [] -> Resp.content (Resp.message c) <> []).
Proof.
  intros body w resp w' H.
  apply chat_completions_Ok in H as (prompt & args & output & w1 & Hreq & Hgen & H).
  apply assemble_response_Ok in H as (created & _ & ->).
  eexists args, output, w1, _. split; [exact Hgen|]. split; [reflexivity|].
  simpl. rewrite or_else_spec.
  assert (Hiff :
    match strip (slice_from (decode output) (len prompt)) with
    | [] => decode output
    | _ :: _ => strip (slice_from (decode output) (len prompt))
    end = [] <-> decode output = []).
  { destruct (strip (slice_from (decode output) (len prompt))) as [|x xs] eqn:E.
    - reflexivity.
    - split; [discriminate|]. intros Hd. rewrite Hd in E.
      unfold slice_from in E. rewrite !drop_nil in E.
      destruct (0 <=? len prompt); discriminate E. }
  split; [exact Hiff|]. intros Hne Hc. now apply Hne, Hiff.
Qed.

(** C8: every response of the handler has exactly one choice; its index
    is 0, its finish reason is ["stop"] and the role of its message is
    ["assistant"], whatever token sequence the model returned. *)
Theorem single_choice_stop :
  forall body w resp w',
    chat_completions model_repo body w = (Ok resp, w') ->
    length (Resp.choices resp) = 1%nat
    /\ exists c,
         Resp.choices resp = [c]
         /\ Resp.index c = 0
         /\ Resp.finish_reason c = lit "stop"
         /\ Resp.role (Resp.message c) = lit "assistant".
Proof.
  intros body w resp w' H.
  apply chat_completions_Ok in H as (prompt & args & output & w1 & _ & _ & H).
  apply assemble_response_Ok in H as (created & _ & ->).
  simpl. split; [reflexivity|]. eexists. split; [reflexivity|]. auto.
Qed.

(** C10: the id of every response of the handler is ["chatcmpl-"] followed
    by 12 lower-case hexadecimal digits: the id has 21 characters and
    starts with ["chatcmpl-"]. *)
Theorem response_id_format :
  forall body w resp w',
    chat_completions model_repo body w = (Ok resp, w') ->
    length (Resp.id resp) = 21%nat
    /\ take 9 (Resp.id resp) = lit "chatcmpl-"
    /\ exists digits,
         Resp.id resp = lit "chatcmpl-" ++ digits
         /\ length digits = 12%nat
         /\ forallb is_lower_hex digits = true.
Proof.
  intros body w resp w' H.
  apply chat_completions_Ok in H as (prompt & args & output & w1 & _ & _ & H).
  apply assemble_response_Ok in H as (created & _ & ->).
  cbn [Resp.id].
  set (n := uuid_set_version _ 4).
  assert (Hlen : length (take 12 (uuid_hex n)) = 12%nat).
  { rewrite length_take, uuid_hex_length. reflexivity. }
  split; [|split].
  - rewrite length_app, Hlen. reflexivity.
  - reflexivity.
  - exists (take 12 (uuid_hex n)). split; [reflexivity|]. split; [exact Hlen|].
    apply forallb_take, uuid_hex_lower.
Qed.

End ResponseFacts.

(** ** The model cache *)

Section FileSystemFacts.

Lemma same_but_fs_refl w : same_but_fs w w.
Proof. now repeat split. Qed.

Lemma same_but_fs_trans w1 w2 w3 :
  same_but_fs w1 w2 -> same_but_fs w2 w3 -> same_but_fs w1 w3.
Proof.
  unfold same_but_fs. intros (?&?&?&?&?&?) (?&?&?&?&?&?).
  repeat split; congruence.
Qed.

Lemma os_mkdir_frame p w r w' :
  os_mkdir p w = (r, w') -> same_but_fs w w'.
Proof.
  unfold os_mkdir. intros H.
  destruct (stat (fs w) p); [injection H as _ <-; apply same_but_fs_refl|].
  destruct (stat (fs w) (parent p)) as [[|]|];
    injection H as _ <-; now repeat split.
Qed.

Lemma os_mkdir_Ok p w w' :
  os_mkdir p w = (Ok tt, w') -> stat (fs w') p = Some Dir.
Proof.
  unfold os_mkdir. intros H.
  destruct (stat (fs w) p) eqn:Hp; [discriminate|].
  destruct (stat (fs w) (parent p)) as [[|]|]; try discriminate.
  injection H as <-. destruct p as [|c up]; [discriminate Hp|].
  simpl. apply lookup_insert_eq.
Qed.

Lemma mkdir_oserror_Ok p exist_ok e w w' :
  mkdir_oserror p exist_ok e w = (Ok tt, w') ->
  w' = w /\ stat (fs w) p = Some Dir.
Proof.
  unfold mkdir_oserror. intros H.
  bind_inv H as d w1 Hd. unfold is_dir in Hd. injection Hd as <- <-.
  destruct (stat (fs w) p) as [[|]|]; destruct exist_ok; simpl in H;
    try discriminate H.
  apply ret_Ok in H as [_ ->]. auto.
Qed.

Lemma mkdir_single_Ok p exist_ok w w' :
  mkdir_single p exist_ok w = (Ok tt, w') ->
  same_but_fs w w' /\ stat (fs w') p = Some Dir.
Proof.
  unfold mkdir_single. intros H.
  destruct (os_mkdir p w) as [[[]|e] w1] eqn:Hos.
  - injection H as <-. split; [eapply os_mkdir_frame | eapply os_mkdir_Ok]; eauto.
  - pose proof (os_mkdir_frame _ _ _ _ Hos) as Hfr.
    destruct e; try discriminate H;
      apply mkdir_oserror_Ok in H as [-> Hd]; auto.
Qed.

Lemma mkdir_unfold p parents exist_ok w :
  mkdir p parents exist_ok w
  = match os_mkdir p w with
    | (Ok u, w') => (Ok u, w')
    | (Raise FileNotFoundError, w') =>
        match p with
        | [] => (Raise FileNotFoundError, w')
        | _ :: up =>
            if negb parents then (Raise FileNotFoundError, w')
            else (mkdir up true true ;; mkdir_single p exist_ok) w'
        end
    | (Raise e, w') => mkdir_oserror p exist_ok e w'
    end.
Proof. destruct p; reflexivity. Qed.

(** [Path.mkdir] touches the file system only and, when it returns, the
    path is a directory. *)
Lemma mkdir_Ok p parents exist_ok w w' :
  mkdir p parents exist_ok w = (Ok tt, w') ->
  same_but_fs w w' /\ stat (fs w') p = Some Dir.
Proof.
  revert parents exist_ok w w'.
  induction p as [|c up IH]; intros parents exist_ok w w' H;
    rewrite mkdir_unfold in H;
    destruct (os_mkdir _ w) as [[[]|e] w1] eqn:Hos;
    try (injection H as <-;
         split; [eapply os_mkdir_frame | eapply os_mkdir_Ok]; now eauto);
    pose proof (os_mkdir_frame _ _ _ _ Hos) as Hfr;
    destruct e;
    try (apply mkdir_oserror_Ok in H as [-> Hd]; now auto);
    try discriminate H.
  destruct parents; simpl in H; [|discriminate H].
  bind_inv H as u w2 Hup. destruct u.
  apply IH in Hup as [Hfr2 _].
  apply mkdir_single_Ok in H as [Hfr3 Hd]. split; [|exact Hd].
  eauto using same_but_fs_trans.
Qed.



End FileSystemFacts.

Section ModelCacheFacts.
Context {hub : Hub}.




End ModelCacheFacts.

(** ** The example instance *)

Section Examples.

Lemma char_runtime_full_sequence : returns_full_sequence char_runtime.
Proof.
  intros args w output w' H. simpl in H. injection H as <- _.
  rewrite length_app. lia.
Qed.


Example build_prompt_hi :
  build_prompt (format_messages [(lit "user", lit "Hi")])
  = lit "user: Hi" ++ newline ++ lit "assistant:".
Proof. vm_compute. reflexivity. Qed.

Example float_0_7_nearest :
  match float_0_7 with
  | S754_finite false m e =>
      e = -53 /\ Z.abs (10 * Z.pos m - 7 * 2 ^ 53) * 2 <= 10
      /\ valid_binary prec64 emax64 float_0_7 = true
  | _ => False
  end.
Proof. vm_compute. repeat split; discriminate. Qed.

Example float_0_8_nearest :
  match float_0_8 with
  | S754_finite false m e =>
      e = -53 /\ Z.abs (10 * Z.pos m - 8 * 2 ^ 53) * 2 <= 10
      /\ valid_binary prec64 emax64 float_0_8 = true
  | _ => False
  end.
Proof. vm_compute. repeat split; discriminate. Qed.

Example uuid4_hex_example :
  uuid_hex (uuid_set_version 24197857208548530547204449711730528820 4)
  = lit "12345678abcd4eadbeefcafef00d1234".
Proof. vm_compute. reflexivity. Qed.

(** The request for ["Hi"] is answered with [" Hi"] stripped; the prompt
    has 19 tokens, the model adds 3. *)
Example hi_request_run :
  chat_completions (rt := char_runtime) tiny_gpt2 hi_request fresh_world
  = (Ok (response_to (lit "Hi") 19), world_after_request).
Proof. vm_compute. reflexivity. Qed.

Example empty_request_run :
  chat_completions (rt := char_runtime) tiny_gpt2 empty_request fresh_world
  = (Ok (response_to (lit "Hi") 10), world_after_request).
Proof. vm_compute. reflexivity. Qed.

(** A model that returns fewer tokens than it was given: the clamp keeps
    [completion_tokens] at zero and the three counts no longer add up. *)
Example usage_clamped_example :
  forall w resp w',
    assemble_response (rt := char_runtime) tiny_gpt2 hi_prompt
      (map Z.of_N hi_prompt) [1; 2] w = (Ok resp, w') ->
    Resp.usage resp
    = {| Resp.prompt_tokens := 19; Resp.completion_tokens := 0;
         Resp.total_tokens := 2 |}.
Proof.
  intros w resp w' H.
  apply assemble_response_Ok in H as (created & _ & ->). reflexivity.
Qed.

Example strip_example : strip (lit "  a b  ") = lit "a b".
Proof. reflexivity. Qed.

(** Only white space after the prompt: the whole decoded text is kept. *)
Example or_else_example :
  or_else (strip (slice_from (lit "assistant:  ") (len (lit "assistant:"))))
          (lit "assistant:  ")
  = lit "assistant:  ".
Proof. reflexivity. Qed.

Example build_prompt_without_fields :
  build_prompt [<[lit "content" := lit "Hi"]> ∅; <[lit "role" := lit "system"]> ∅]
  = lit "user: Hi" ++ newline ++ lit "system: " ++ newline ++ lit "assistant:".
Proof. vm_compute. reflexivity. Qed.

(** A target path that is a regular file: [mkdir] fails and nothing is
    fetched. *)
Example ensure_model_on_a_file :
  forall w,
    fs w = <[[lit "models"] := File]> ∅ ->
    exists w',
      ensure_model (hub := one_file_hub) tiny_gpt2 [lit "models"] w
      = (Raise FileExistsError, w')
      /\ hub_log w' = hub_log w.
Proof.
  intros w Hfs. exists w. split; [|reflexivity].
  assert (Hmk : mkdir [lit "models"] true true w = (Raise FileExistsError, w)).
  { assert (Hst : stat (fs w) [lit "models"] = Some File)
      by (simpl; rewrite Hfs; apply lookup_insert_eq).
    rewrite mkdir_unfold. unfold os_mkdir. rewrite Hst.
    unfold mkdir_oserror, bind, is_dir. rewrite Hst. reflexivity. }
  unfold ensure_model, bind. now rewrite Hmk.
Qed.

Example first_ensure_model_run :
  ensure_model (hub := one_file_hub) tiny_gpt2 tiny_gpt2_dir fresh_world
  = (Ok tiny_gpt2_dir, world_after_download).
Proof. vm_compute. reflexivity. Qed.

End Examples.

(** ** The theorems at the example instance *)

Section Instances.

Ltac run := vm_compute; reflexivity.

Lemma usage_accounting_example :
  chat_completions (rt := char_runtime) tiny_gpt2 hi_request fresh_world
  = (Ok (response_to (lit "Hi") 19), world_after_request)
  /\ Resp.total_tokens (Resp.usage (response_to (lit "Hi") 19))
     = Resp.prompt_tokens (Resp.usage (response_to (lit "Hi") 19))
       + Resp.completion_tokens (Resp.usage (response_to (lit "Hi") 19))
  /\ Resp.completion_tokens (Resp.usage (response_to (lit "Hi") 19)) >= 0.
Proof.
  assert (Hrun :
    chat_completions (rt := char_runtime) tiny_gpt2 hi_request fresh_world
    = (Ok (response_to (lit "Hi") 19), world_after_request)) by run.
  split; [exact Hrun|].
  destruct (usage_accounting (rt := char_runtime) tiny_gpt2 hi_request
              fresh_world _ _ Hrun)
    as (args & output & w1 & _ & _ & _ & _ & _ & Hpos & _ & Hsum).
  split; [exact (Hsum char_runtime_full_sequence) | exact Hpos].
Defined.

Lemma completion_extraction_example :
  chat_completions (rt := char_runtime) tiny_gpt2 hi_request fresh_world
  = (Ok (response_to (lit "Hi") 19), world_after_request)
  /\ exists args output w1 c,
       generate (Runtime := char_runtime) args fresh_world = (Ok output, w1)
       /\ Resp.choices (response_to (lit "Hi") 19) !! 0%nat = Some c
       /\ Resp.content (Resp.message c)
          = match strip (drop 19 (decode (Runtime := char_runtime) output)) with
            | [] => decode (Runtime := char_runtime) output
            | _ :: _ => strip (drop 19 (decode (Runtime := char_runtime) output))
            end.
Proof.
  assert (Hrun :
    chat_completions (rt := char_runtime) tiny_gpt2 hi_request fresh_world
    = (Ok (response_to (lit "Hi") 19), world_after_request)) by run.
  split; [exact Hrun|].
  destruct (completion_extraction (rt := char_runtime) tiny_gpt2 hi_request
              fresh_world _ _ Hrun)
    as (args & output & w1 & c & Hgen & Hc & Hcontent & _).
  exists args, output, w1, c. split; [exact Hgen|]. split; [exact Hc|].
  exact Hcontent.
Defined.

Lemma generation_parameters_example :
  generation_request (rt := char_runtime) hi_request fresh_world
  = (Ok (hi_prompt, hi_args), fresh_world)
  /\ p_max_tokens hi_request = Some (Int 1)
  /\ max_new_tokens hi_args = 16.
Proof.
  assert (Hreq :
    generation_request (rt := char_runtime) hi_request fresh_world
    = (Ok (hi_prompt, hi_args), fresh_world)) by run.
  split; [exact Hreq|]. split; [reflexivity|].
  exact (proj1 (proj2 (proj2 (proj2
           (generation_parameters (rt := char_runtime) tiny_gpt2 hi_request
              fresh_world _ _ _ Hreq)))) eq_refl).
Defined.

Lemma sampling_flag_example :
  generation_request (rt := char_runtime) hi_request fresh_world
  = (Ok (hi_prompt, hi_args), fresh_world)
  /\ p_temperature hi_request = Some (Int 0)
  /\ do_sample hi_args = false.
Proof.
  assert (Hreq :
    generation_request (rt := char_runtime) hi_request fresh_world
    = (Ok (hi_prompt, hi_args), fresh_world)) by run.
  split; [exact Hreq|]. split; [reflexivity|].
  exact (proj1 (proj2 (proj2 (proj2 (proj2 (proj2
           (sampling_flag (rt := char_runtime) tiny_gpt2 hi_request
              fresh_world _ _ _ Hreq)))))) eq_refl).
Defined.

Lemma completion_empty_iff_example :
  chat_completions (rt := char_runtime) tiny_gpt2 empty_request fresh_world
  = (Ok (response_to (lit "Hi") 10), world_after_request)
  /\ exists args output w1 c,
       generate (Runtime := char_runtime) args fresh_world = (Ok output, w1)
       /\ Resp.choices (response_to (lit "Hi") 10) !! 0%nat = Some c
       /\ (Resp.content (Resp.message c) = []
           <-> decode (Runtime := char_runtime) output = []).
Proof.
  assert (Hrun :
    chat_completions (rt := char_runtime) tiny_gpt2 empty_request fresh_world
    = (Ok (response_to (lit "Hi") 10), world_after_request)) by run.
  split; [exact Hrun|].
  destruct (completion_empty_iff (rt := char_runtime) tiny_gpt2 empty_request
              fresh_world _ _ Hrun)
    as (args & output & w1 & c & Hgen & Hc & Hiff & _).
  exists args, output, w1, c. auto.
Defined.

Lemma single_choice_stop_example :
  chat_completions (rt := char_runtime) tiny_gpt2 hi_request fresh_world
  = (Ok (response_to (lit "Hi") 19), world_after_request)
  /\ length (Resp.choices (response_to (lit "Hi") 19)) = 1%nat.
Proof.
  assert (Hrun :
    chat_completions (rt := char_runtime) tiny_gpt2 hi_request fresh_world
    = (Ok (response_to (lit "Hi") 19), world_after_request)) by run.
  split; [exact Hrun|].
  exact (proj1 (single_choice_stop (rt := char_runtime) tiny_gpt2 hi_request
                  fresh_world _ _ Hrun)).
Defined.

Lemma response_id_format_example :
  chat_completions (rt := char_runtime) tiny_gpt2 empty_request fresh_world
  = (Ok (response_to (lit "Hi") 10), world_after_request)
  /\ length (Resp.id (response_to (lit "Hi") 10)) = 21%nat.
Proof.
  assert (Hrun :
    chat_completions (rt := char_runtime) tiny_gpt2 empty_request fresh_world
    = (Ok (response_to (lit "Hi") 10), world_after_request)) by run.
  split; [exact Hrun|].
  exact (proj1 (response_id_format (rt := char_runtime) tiny_gpt2
                  empty_request fresh_world _ _ Hrun)).
Defined.


End Instances.

(** * Further properties of the scripts *)

(** ** The model cache: failures and effects *)

Section ModelCacheEffects.
Context {hub : Hub}.

Lemma mkdir_oserror_same p exist_ok e w r w' :
  mkdir_oserror p exist_ok e w = (r, w') -> w' = w.
Proof.
  unfold mkdir_oserror, bind, is_dir, raise, ret.
  destruct (negb exist_ok || negb _); now intros [= _ <-].
Qed.

Lemma only_adds_dirs_refl p f : only_adds_dirs p f f.
Proof. intros q. now left. Qed.

Lemma only_adds_dirs_trans up p f1 f2 f3 :
  up `suffix_of` p ->
  only_adds_dirs up f1 f2 -> only_adds_dirs p f2 f3 -> only_adds_dirs p f1 f3.
Proof.
  intros Hup H12 H23 q.
  destruct (H23 q) as [E23 | (N2 & D3 & S3)];
    destruct (H12 q) as [E12 | (N1 & D2 & S2)].
  - left. congruence.
  - right. split; [exact N1|]. split; [congruence|].
    now transitivity up.
  - right. split; [congruence|]. auto.
  - congruence.
Qed.

Lemma os_mkdir_only_adds p w r w' :
  os_mkdir p w = (r, w') -> only_adds_dirs p (fs w) (fs w').
Proof.
  unfold os_mkdir. intros H.
  destruct (stat (fs w) p) eqn:Hp;
    [injection H as _ <-; apply only_adds_dirs_refl|].
  destruct (stat (fs w) (parent p)) as [[|]|];
    try (injection H as _ <-; apply only_adds_dirs_refl).
  injection H as _ <-. simpl. intros q.
  destruct (decide (p = q)) as [<- | Hne].
  - right. destruct p as [|c up]; [discriminate Hp|]. simpl in Hp.
    split; [exact Hp|]. split; [apply lookup_insert_eq | reflexivity].
  - left. now apply lookup_insert_ne.
Qed.

Lemma mkdir_single_only_adds p exist_ok w r w' :
  mkdir_single p exist_ok w = (r, w') ->
  same_but_fs w w' /\ only_adds_dirs p (fs w) (fs w').
Proof.
  unfold mkdir_single. intros H.
  destruct (os_mkdir p w) as [[u|e] w1] eqn:Hos.
  - injection H as _ <-.
    split; [eapply os_mkdir_frame | eapply os_mkdir_only_adds]; eauto.
  - pose proof (os_mkdir_frame _ _ _ _ Hos) as Hfr.
    pose proof (os_mkdir_only_adds _ _ _ _ Hos) as Hadd.
    destruct e; try (apply mkdir_oserror_same in H as ->; now auto).
    injection H as _ <-. auto.
Qed.

(** [Path.mkdir], whether it returns or raises, changes the file system
    only, and there only by making directories on the way to the path. *)
Lemma mkdir_effect p parents exist_ok w r w' :
  mkdir p parents exist_ok w = (r, w') ->
  same_but_fs w w' /\ only_adds_dirs p (fs w) (fs w').
Proof.
  revert parents exist_ok w r w'.
  induction p as [|c up IH]; intros parents exist_ok w r w' H;
    rewrite mkdir_unfold in H;
    destruct (os_mkdir _ w) as [[u|e] w1] eqn:Hos;
    pose proof (os_mkdir_frame _ _ _ _ Hos) as Hfr;
    pose proof (os_mkdir_only_adds _ _ _ _ Hos) as Hadd;
    try (injection H as _ <-; now auto);
    destruct e;
    try (apply mkdir_oserror_same in H as ->; now auto);
    try (injection H as _ <-; now auto).
  destruct parents; simpl in H; [|injection H as _ <-; now auto].
  unfold bind in H.
  destruct (mkdir up true true w1) as [[u|e] w2] eqn:Hup.
  - apply IH in Hup as [Hfr2 Hadd2].
    apply mkdir_single_only_adds in H as [Hfr3 Hadd3]. split.
    + eauto using same_but_fs_trans.
    + apply (only_adds_dirs_trans (c :: up) (c :: up) _ (fs w1)); auto.
      apply (only_adds_dirs_trans up (c :: up) _ (fs w2)); auto.
      now apply suffix_cons_r.
  - apply IH in Hup as [Hfr2 Hadd2]. injection H as _ <-. split.
    + eauto using same_but_fs_trans.
    + apply (only_adds_dirs_trans (c :: up) (c :: up) _ (fs w1)); auto.
      intros q. destruct (Hadd2 q) as [E | (N1 & D2 & S2)]; [now left|].
      right. split; [exact N1|]. split; [exact D2|]. now apply suffix_cons_r.
Qed.





(** X3: the [mkdir] of [ensure_model], whether it returns or raises,
    removes nothing and overwrites nothing: every path keeps what it had,
    and a path that had nothing is afterwards either still missing or a
    directory that is the target or one of its ancestors.  Nothing but
    the file system changes. *)
Theorem mkdir_only_adds_directories :
  forall target_dir parents exist_ok w r w',
    mkdir target_dir parents exist_ok w = (r, w') ->
    same_but_fs w w'
    /\ (forall q x, fs w !! q = Some x -> fs w' !! q = Some x)
    /\ (forall q, fs w !! q = None ->
          fs w' !! q = None
          \/ (fs w' !! q = Some Dir /\ q `suffix_of` target_dir))
    /\ (r = Ok tt -> stat (fs w') target_dir = Some Dir).
Proof.
  intros target_dir parents exist_ok w r w' H.
  pose proof (mkdir_effect _ _ _ _ _ _ H) as [Hfr Hadd].
  split; [exact Hfr|]. split; [|split].
  - intros q x Hq. destruct (Hadd q) as [E | (N1 & _)]; congruence.
  - intros q Hq. destruct (Hadd q) as [E | (_ & D & S)]; [left; congruence|].
    right. auto.
  - intros ->. now apply mkdir_Ok in H.
Qed.

(** X4: when the target path is a regular file, [ensure_model] raises
    [FileExistsError]; when the target is missing and its parent is a
    regular file, it raises [NotADirectoryError].  In both cases the world
    is left as it was: nothing is created, printed or fetched. *)
Theorem ensure_model_file_in_the_way :
  forall model_repo target_dir w,
    (stat (fs w) target_dir = Some File ->
     ensure_model model_repo target_dir w = (Raise FileExistsError, w))
    /\ (stat (fs w) target_dir = None ->
        stat (fs w) (parent target_dir) = Some File ->
        ensure_model model_repo target_dir w = (Raise NotADirectoryError, w)).
Proof.
  intros model_repo target_dir w. split.
  - intros Hst.
    assert (Hmk : mkdir target_dir true true w = (Raise FileExistsError, w)).
    { rewrite mkdir_unfold. unfold os_mkdir. rewrite Hst.
      unfold mkdir_oserror, bind, is_dir. now rewrite Hst. }
    unfold ensure_model, bind. now rewrite Hmk.
  - intros Hst Hpar.
    assert (Hmk : mkdir target_dir true true w = (Raise NotADirectoryError, w)).
    { rewrite mkdir_unfold. unfold os_mkdir. rewrite Hst, Hpar.
      unfold mkdir_oserror, bind, is_dir. now rewrite Hst. }
    unfold ensure_model, bind. now rewrite Hmk.
Qed.

End ModelCacheEffects.

(** ** The default cache directory *)

Section DefaultCacheFacts.
Context {hub : Hub}.

Lemma replace_char_map (s : pystr) :
  replace_char 47 (lit "_") s
  = map (fun c => if (c =? 47)%N then 95%N else c) s.
Proof.
  unfold replace_char. induction s as [|c s IH]; [reflexivity|].
  simpl. rewrite IH. now destruct (c =? 47)%N.
Qed.

Lemma replace_char_no_slash (s : pystr) :
  Forall (fun c => c <> 47%N) (replace_char 47 (lit "_") s).
Proof.
  rewrite replace_char_map. apply Forall_forall. intros c Hc.
  apply list_elem_of_In, in_map_iff in Hc as (d & <- & _).
  destruct (N.eqb_spec d 47); [discriminate | assumption].
Qed.

Lemma split_char_no_sep sep (s : pystr) :
  Forall (fun c => c <> sep) s -> split_char sep s = [s].
Proof.
  induction 1 as [|c s Hc _ IH]; [reflexivity|].
  simpl. rewrite IH. destruct (N.eqb_spec c sep); [contradiction | reflexivity].
Qed.


(** X5: the default cache directory is the path [models] followed by at
    most one component.  That component is the name of the repository
    with every slash replaced by an underscore: it is as long as the name
    and holds no slash.  For a name other than the empty one, ["."] and
    [".."] the directory is the child of [models] with this component.
    The empty name and ["."] give [models] itself, and [".."] gives the
    path [models/..], whose last component is [".."] and not the name of
    a child of [models]. *)
Theorem default_cache_shape :
  forall model_repo : pystr,
    let name := replace_char 47 (lit "_") model_repo in
    default_cache model_repo
    = (if decide (model_repo = [] \/ model_repo = lit ".")
       then [lit "models"] else [name; lit "models"])
    /\ length name = length model_repo
    /\ Forall (fun c => c <> 47%N) name
    /\ (model_repo = [] \/ model_repo = lit "." ->
        default_cache model_repo = [lit "models"])
    /\ (model_repo = lit ".." ->
        default_cache model_repo = [lit ".."; lit "models"])
    /\ (model_repo <> [] -> model_repo <> lit "." -> model_repo <> lit ".." ->
        default_cache model_repo = [name; lit "models"]
        /\ name <> [] /\ name <> lit "." /\ name <> lit "..").
Proof.
  intros model_repo name.
  pose proof (replace_char_no_slash model_repo) as Hns. fold name in Hns.
  assert (Hnil : name = [] <-> model_repo = []).
  { unfold name. rewrite replace_char_map.
    destruct model_repo; simpl; split; congruence. }
  assert (Hdot : name = lit "." <-> model_repo = lit ".").
  { unfold name. rewrite replace_char_map.
    change (lit ".") with [46%N].
    destruct model_repo as [|c [|d rest]]; simpl.
    - split; discriminate.
    - destruct (N.eqb_spec c 47) as [-> | Hc]; split;
        discriminate || (intros [= ->]; reflexivity).
    - split; discriminate. }
  assert (Hdots : name = lit ".." <-> model_repo = lit "..").
  { unfold name. rewrite replace_char_map.
    change (lit "..") with [46%N; 46%N].
    destruct model_repo as [|c [|d [|x rest]]]; simpl.
    - split; discriminate.
    - split; discriminate.
    - destruct (N.eqb_spec c 47) as [-> | Hc];
        destruct (N.eqb_spec d 47) as [-> | Hd]; split;
        discriminate || (intros [= -> ->]; reflexivity).
    - split; discriminate. }
  assert (Hval :
    default_cache model_repo
    = (if decide (model_repo = [] \/ model_repo = lit ".")
       then [lit "models"] else [name; lit "models"])).
  { unfold default_cache, path_div, path_parts. fold name.
    rewrite (split_char_no_sep _ _ Hns).
    destruct (decide (model_repo = [] \/ model_repo = lit ".")) as [Hd | Hd].
    + rewrite filter_cons_False, filter_nil; [reflexivity|].
      intros [H1 H2]. destruct Hd as [Hd | Hd];
        [apply H1, Hnil, Hd | apply H2, Hdot, Hd].
    + rewrite filter_cons_True, filter_nil; [reflexivity|].
      split; intros H; apply Hd; [left; now apply Hnil | right; now apply Hdot]. }
  split; [exact Hval|]. split; [|split; [exact Hns|]].
  { unfold name. rewrite replace_char_map. apply length_map. }
  split; [|split].
  - intros Hd. rewrite Hval.
    destruct (decide (model_repo = [] \/ model_repo = lit ".")); tauto.
  - intros ->. reflexivity.
  - intros H1 H2 H3. rewrite Hval.
    destruct (decide (model_repo = [] \/ model_repo = lit ".")) as [Hd|Hd];
      [tauto|].
    split; [reflexivity|]. rewrite Hnil, Hdot, Hdots. auto.
Qed.


End DefaultCacheFacts.

Ltac unpack :=
  repeat match goal with
         | H : _ \/ _ |- _ => destruct H as [H | H]
         | H : exists _, _ |- _ => destruct H as [? H]
         | H : _ /\ _ |- _ => destruct H as [? H]
         end.

(** ** The handler: failures and effects *)

Section HandlerEffects.
Context {rt : Runtime}.
Variable model_repo : pystr.

Lemma generation_request_eq body w :
  generation_request body w
  = (match py_int (get (p_max_tokens body) (Int 128)) with
     | Raise e => Raise e
     | Ok n =>
         match py_float (get (p_temperature body) (Float float_0_7)) with
         | Raise e => Raise e
         | Ok t =>
             match py_float (get (p_top_p body) (Float float_0_8)) with
             | Raise e => Raise e
             | Ok p =>
                 Ok (build_prompt (get (p_messages body) []),
                     {| input_ids :=
                          tokenizer (build_prompt (get (p_messages body) []));
                        pad_token_id := eos_token_id;
                        do_sample := float_gt t float_zero;
                        temperature := t;
                        top_p := p;
                        max_new_tokens := Z.max 16 n |})
             end
         end
     end, w).
Proof.
  unfold generation_request, bind, lift, ret.
  destruct (py_int _); [|reflexivity].
  destruct (py_float (get (p_temperature body) _)); [|reflexivity].
  destruct (py_float (get (p_top_p body) _)); reflexivity.
Qed.

Lemma assemble_response_world prompt inputs output w r w' :
  assemble_response model_repo prompt inputs output w = (r, w') ->
  w' = after_draw w
  /\ match r with
     | Ok resp => py_int (Float (clock w)) = Ok (Resp.created resp)
     | Raise e => py_int (Float (clock w)) = Raise e
     end.
Proof.
  intros H.
  destruct r as [resp|e].
  - apply assemble_response_Ok in H as H'. destruct H' as (created & Hc & ->).
    split; [|exact Hc].
    revert H.
    lazy beta iota zeta
      delta [assemble_response uuid4 urandom16 time_time bind lift ret].
    cbn [clock].
    rewrite Hc. now intros [= <-].
  - revert H.
    lazy beta iota zeta
      delta [assemble_response uuid4 urandom16 time_time bind lift ret].
    cbn [clock].
    destruct (py_int (Float (clock w))); [discriminate|].
    now intros [= <- <-].
Qed.

Lemma chat_completions_eq body w :
  chat_completions model_repo body w
  = match generation_request body w with
    | (Ok (prompt, args), w0) =>
        match generate args w0 with
        | (Ok output, w1) =>
            assemble_response model_repo prompt (input_ids args) output w1
        | (Raise e, w1) => (Raise e, w1)
        end
    | (Raise e, w0) => (Raise e, w0)
    end.
Proof.
  unfold chat_completions, bind.
  destruct (generation_request body w) as [[[prompt args]|e] w0];
    reflexivity.
Qed.

(** For a request whose parameters are JSON numbers and whose messages
    are records, the handler raises in five ways and no other. *)
Lemma chat_completions_raise_cases :
  forall body w e w',
    let max_tokens := py_int (get (p_max_tokens body) (Int 128)) in
    let temp := py_float (get (p_temperature body) (Float float_0_7)) in
    let nucleus := py_float (get (p_top_p body) (Float float_0_8)) in
    chat_completions model_repo body w = (Raise e, w')
    <-> (max_tokens = Raise e /\ w' = w)
        \/ ((exists n, max_tokens = Ok n) /\ temp = Raise e /\ w' = w)
        \/ ((exists n, max_tokens = Ok n) /\ (exists t, temp = Ok t)
            /\ nucleus = Raise e /\ w' = w)
        \/ (exists prompt args,
              generation_request body w = (Ok (prompt, args), w)
              /\ generate args w = (Raise e, w'))
        \/ (exists prompt args output w1,
              generation_request body w = (Ok (prompt, args), w)
              /\ generate args w = (Ok output, w1)
              /\ py_int (Float (clock w1)) = Raise e
              /\ w' = after_draw w1).
Proof.
  intros body w e w' max_tokens temp nucleus.
  rewrite chat_completions_eq, generation_request_eq.
  fold max_tokens temp nucleus.
  destruct max_tokens as [n|e1] eqn:Hn.
  2:{ split; [intros [= -> <-]; now left|].
      intros H. unpack; congruence. }
  destruct temp as [t|e1] eqn:Ht.
  2:{ split; [intros [= -> <-]; right; left; split_and!; eauto|].
      intros H. unpack; congruence. }
  destruct nucleus as [p|e1] eqn:Hp.
  2:{ split; [intros [= -> <-]; right; right; left; split_and!; eauto|].
      intros H. unpack; congruence. }
  set (prompt := build_prompt (get (p_messages body) [])).
  set (args := {| input_ids := tokenizer prompt; pad_token_id := eos_token_id;
                  do_sample := float_gt t float_zero; temperature := t;
                  top_p := p; max_new_tokens := Z.max 16 n |}).
  destruct (generate args w) as [[output|e1] w1] eqn:Hg.
  - split.
    + intros H. apply assemble_response_world in H as [-> Hc].
      do 4 right. exists prompt, args, output, w1. auto.
    + intros H.
      destruct (assemble_response model_repo prompt (input_ids args)
                  output w1) as [r w3] eqn:Ha.
      apply assemble_response_world in Ha as [-> Hr].
      unpack; try congruence;
        try match goal with
            | H : (Ok _, w) = (Ok _, w) |- _ => injection H as <- <-
            end;
        try match goal with
            | H : generate args w = (Ok _, _) |- _ =>
                rewrite Hg in H; injection H as <- <-
            end;
        destruct r; congruence.
  - split.
    + intros [= -> <-]. do 3 right. left. exists prompt, args. auto.
    + intros H.
      unpack; try congruence;
        try match goal with
            | H : (Ok _, w) = (Ok _, w) |- _ => injection H as <- <-
            end;
        congruence.
Qed.

(** X7: how failures go through the handler.  A conversion of
    [max_tokens], of [temperature] or of [top_p] that fails makes the
    handler raise the exception of the first of them that fails, in this
    order, before the model is called and with the world as it was.  An
    exception of the model is raised by the handler as it is, with the
    world as the model left it: no random bytes are drawn and no response
    is built.  A time of the clock that does not convert to an int is
    raised after generation and one draw of random bytes. *)
Theorem chat_completions_raises :
  forall body w e w',
    let max_tokens := py_int (get (p_max_tokens body) (Int 128)) in
    let temp := py_float (get (p_temperature body) (Float float_0_7)) in
    let nucleus := py_float (get (p_top_p body) (Float float_0_8)) in
    (max_tokens = Raise e /\ w' = w)
    \/ ((exists n, max_tokens = Ok n) /\ temp = Raise e /\ w' = w)
    \/ ((exists n, max_tokens = Ok n) /\ (exists t, temp = Ok t)
        /\ nucleus = Raise e /\ w' = w)
    \/ (exists prompt args,
          generation_request body w = (Ok (prompt, args), w)
          /\ generate args w = (Raise e, w'))
    \/ (exists prompt args output w1,
          generation_request body w = (Ok (prompt, args), w)
          /\ generate args w = (Ok output, w1)
          /\ py_int (Float (clock w1)) = Raise e
          /\ w' = after_draw w1) ->
    chat_completions model_repo body w = (Raise e, w').
Proof.
  intros body w e w' max_tokens temp nucleus H.
  now apply chat_completions_raise_cases.
Qed.

(** X8: a [max_tokens] that is a NaN makes the handler raise
    [ValueError], and one that is an infinity [OverflowError], before the
    model is called and without a change of the world; every other
    [max_tokens], int or float, converts, and whenever the model is called
    it is asked for at least 16 new tokens. *)
Theorem max_tokens_conversion :
  forall body w,
    (p_max_tokens body = Some (Float S754_nan) ->
     chat_completions model_repo body w = (Raise ValueError, w))
    /\ (forall s, p_max_tokens body = Some (Float (S754_infinity s)) ->
        chat_completions model_repo body w = (Raise OverflowError, w))
    /\ (p_max_tokens body <> Some (Float S754_nan) ->
        (forall s, p_max_tokens body <> Some (Float (S754_infinity s))) ->
        exists n, py_int (get (p_max_tokens body) (Int 128)) = Ok n)
    /\ (forall prompt args w',
          generation_request body w = (Ok (prompt, args), w') ->
          16 <= max_new_tokens args).
Proof.
  intros body w. split_and!.
  - intros H. rewrite chat_completions_eq, generation_request_eq, H.
    reflexivity.
  - intros s H. rewrite chat_completions_eq, generation_request_eq, H.
    reflexivity.
  - intros Hnan Hinf.
    destruct (p_max_tokens body) as [[z|[s|s| |s m e]]|]; simpl; eauto.
    + now destruct (Hinf s).
    + now destruct Hnan.
  - intros prompt args w' H.
    apply generation_request_Ok in H as (n & t & p & _ & _ & _ & _ & _ & ->).
    simpl. lia.
Qed.

(** X9: a request that is answered changes the world as the model does
    and by one draw of random bytes, nothing else; the [created] field is
    the time of the clock after generation, truncated to an int, and the
    [model] field is the repository of the server, whatever the request
    says. *)
Theorem chat_completions_effect :
  forall body w resp w',
    chat_completions model_repo body w = (Ok resp, w') ->
    exists prompt args output w1,
      generation_request body w = (Ok (prompt, args), w)
      /\ generate args w = (Ok output, w1)
      /\ w' = after_draw w1
      /\ py_int (Float (clock w1)) = Ok (Resp.created resp)
      /\ Resp.model resp = model_repo
      /\ Resp.object resp = lit "chat.completion".
Proof.
  intros body w resp w' H.
  apply chat_completions_Ok in H
    as (prompt & args & output & w1 & Hreq & Hgen & H).
  exists prompt, args, output, w1. split; [exact Hreq|]. split; [exact Hgen|].
  pose proof (assemble_response_world _ _ _ _ _ _ H) as [-> Hc].
  apply assemble_response_Ok in H as (created & _ & ->). auto.
Qed.

End HandlerEffects.

(** ** The response id and the completion text *)

Section IdentifierFacts.
Context {rt : Runtime}.
Variable model_repo : pystr.

(** The content of the first choice, with what [strip] removed. *)
Lemma content_parts body w resp w' :
  chat_completions model_repo body w = (Ok resp, w') ->
  exists args output w1 c,
    generate args w = (Ok output, w1)
    /\ Resp.choices resp !! 0%nat = Some c
    /\ let prompt := build_prompt (get (p_messages body) []) in
       let decoded := decode output in
       let rest := strip (drop (length prompt) decoded) in
       Resp.content (Resp.message c)
       = match rest with [] => decoded | _ :: _ => rest end
       /\ exists l r,
            drop (length prompt) decoded = l ++ rest ++ r
            /\ forallb is_space l = true
            /\ forallb is_space r = true
            /\ (forall x xs, rest = x :: xs -> is_space x = false)
            /\ (forall x xs, rest = xs ++ [x] -> is_space x = false).
Proof.
  intros H.
  apply chat_completions_Ok in H
    as (prompt & args & output & w1 & Hreq & Hgen & H).
  apply assemble_response_Ok in H as (created & _ & ->).
  apply generation_request_Ok in Hreq as (n & t & p & _ & _ & _ & _ & -> & _).
  eexists args, output, w1, _. split; [exact Hgen|]. split; [reflexivity|].
  simpl. rewrite slice_from_len, or_else_spec. split; [reflexivity|].
  apply strip_decompose.
Qed.

Lemma testbit_small (a k : Z) :
  0 <= a -> Z.log2 a < k -> Z.testbit a k = false.
Proof. intros Ha Hk. now apply Z.bits_above_log2. Qed.

(** The version and variant bits are below bit 80. *)
Lemma uuid_set_version_high (n k : Z) :
  80 <= k -> Z.testbit (uuid_set_version n 4) k = Z.testbit n k.
Proof.
  intros Hk. unfold uuid_set_version.
  rewrite Z.lor_spec, Z.land_spec, Z.lor_spec, Z.land_spec.
  rewrite !Z.lnot_spec, !Z.shiftl_spec by lia.
  rewrite (testbit_small 49152 (k - 48)) by (try reflexivity; simpl; lia).
  rewrite (testbit_small 32768 (k - 48)) by (try reflexivity; simpl; lia).
  rewrite (testbit_small 61440 (k - 64)) by (try reflexivity; simpl; lia).
  rewrite (testbit_small 4 (k - 76)) by (try reflexivity; simpl; lia).
  simpl. now rewrite !andb_true_r, !orb_false_r.
Qed.

Lemma testbit_15 (k : Z) : 4 <= k -> Z.testbit 15 k = false.
Proof. intros Hk. apply testbit_small; [lia | simpl; lia]. Qed.

(** A digit of the identifier above bit 80 is a digit of the random
    draw. *)
Lemma uuid_nibble_high (draw : Z) (j : nat) :
  (j < 12)%nat ->
  Z.land (Z.shiftr (uuid_set_version (Z.land draw (Z.ones 128)) 4)
                   (4 * Z.of_nat (j + 20))) 15
  = Z.land (Z.shiftr (Z.shiftr draw 80 mod 2 ^ 48) (4 * Z.of_nat j)) 15.
Proof.
  intros Hj. apply Z.bits_inj'. intros k Hk.
  rewrite !Z.land_spec.
  destruct (Z.lt_ge_cases k 4) as [Hlt | Hge].
  2:{ now rewrite (testbit_15 k Hge), !andb_false_r. }
  f_equal. rewrite !Z.shiftr_spec by lia.
  rewrite uuid_set_version_high by lia.
  rewrite Z.land_spec, Z.ones_spec_low by lia. rewrite andb_true_r.
  rewrite Z.mod_pow2_bits_low by lia.
  rewrite Z.shiftr_spec by lia. f_equal. lia.
Qed.

Lemma take_12_uuid_hex (draw : Z) :
  take 12 (uuid_hex (uuid_set_version (Z.land draw (Z.ones 128)) 4))
  = hex_digits 12 (Z.shiftr draw 80 mod 2 ^ 48).
Proof.
  unfold uuid_hex, hex_digits.
  change (rev (seq 0 32))
    with (map (fun j => (j + 20)%nat) (rev (seq 0 12))
          ++ rev (seq 0 20)).
  rewrite map_app, take_app_length' by (now rewrite !length_map).
  rewrite map_map. apply map_ext_in. intros j Hj.
  f_equal. apply uuid_nibble_high.
  apply in_rev, in_seq in Hj. lia.
Qed.

(** X10: the id of a response is ["chatcmpl-"] followed by the 12
    hexadecimal digits of bits 80 to 127 of the random draw made after
    generation: the version and variant bits of the UUID do not reach it.
    The id carries 48 random bits, and two draws that agree on these bits
    give the same id. *)
Theorem response_id_random_bits :
  forall body w resp w',
    chat_completions model_repo body w = (Ok resp, w') ->
    exists args output w1,
      generate args w = (Ok output, w1)
      /\ Resp.id resp
         = lit "chatcmpl-"
           ++ hex_digits 12
                (Z.shiftr (entropy w1 (entropy_used w1)) 80 mod 2 ^ 48)
      /\ forall draw,
           Z.shiftr draw 80 mod 2 ^ 48
           = Z.shiftr (entropy w1 (entropy_used w1)) 80 mod 2 ^ 48 ->
           Resp.id resp
           = lit "chatcmpl-"
             ++ take 12 (uuid_hex (uuid_set_version
                                     (Z.land draw (Z.ones 128)) 4)).
Proof.
  intros body w resp w' H.
  apply chat_completions_Ok in H
    as (prompt & args & output & w1 & _ & Hgen & H).
  apply assemble_response_Ok in H as (created & _ & ->).
  exists args, output, w1. split; [exact Hgen|]. cbn [Resp.id].
  split.
  - now rewrite take_12_uuid_hex.
  - intros draw Hd. now rewrite !take_12_uuid_hex, Hd.
Qed.

(** X11: over a runtime whose model appends tokens to the prompt and
    whose decoder gives the prompt back, the output of the model is the
    tokens of the prompt followed by new tokens, and the content of the
    answer is the text of these new tokens without the white space around
    it.  When the new tokens decode to white space only, or there are
    none, the content is the prompt itself followed by that white space:
    the fallback hands the conversation back to the client. *)
Theorem completion_is_new_text :
  forall body w resp w',
    appends_tokens rt ->
    decodes_after_prompt rt ->
    chat_completions model_repo body w = (Ok resp, w') ->
    exists args output w1 new c,
      let prompt := build_prompt (get (p_messages body) []) in
      generation_request body w = (Ok (prompt, args), w)
      /\ generate args w = (Ok output, w1)
      /\ output = tokenizer prompt ++ new
      /\ decode output = prompt ++ decode new
      /\ Resp.choices resp = [c]
      /\ Resp.content (Resp.message c)
         = match strip (decode new) with
           | [] => prompt ++ decode new
           | _ :: _ => strip (decode new)
           end.
Proof.
  intros body w resp w' Happ Hdec H.
  apply chat_completions_Ok in H
    as (prompt & args & output & w1 & Hreq & Hgen & H).
  apply assemble_response_Ok in H as (created & _ & ->).
  pose proof Hreq as Hreq'.
  apply generation_request_Ok in Hreq'
    as (n & t & p & _ & _ & _ & _ & Hprompt & Hargs).
  destruct (Happ _ _ _ _ Hgen) as [new Hnew].
  assert (Hin : input_ids args = tokenizer prompt)
    by (rewrite Hargs; reflexivity).
  rewrite Hin in Hnew. subst output.
  eexists args, _, w1, new, _. cbv zeta. rewrite <- Hprompt.
  split; [exact Hreq|]. split; [exact Hgen|]. split; [reflexivity|].
  split; [apply Hdec|]. split; [reflexivity|].
  cbn [Resp.content Resp.message].
  rewrite Hdec, slice_from_len, or_else_spec, drop_app_length. reflexivity.
Qed.

(** X12: the content of an answer is the whole decoded output, or it is
    a part of the decoded output that starts at or after the offset
    [len(prompt)], is not empty, starts and ends with a character that is
    not white space, and is followed by white space only. *)
Theorem completion_is_a_slice :
  forall body w resp w',
    chat_completions model_repo body w = (Ok resp, w') ->
    exists args output w1 c,
      generate args w = (Ok output, w1)
      /\ Resp.choices resp !! 0%nat = Some c
      /\ let prompt := build_prompt (get (p_messages body) []) in
         let content := Resp.content (Resp.message c) in
         content = decode output
         \/ (exists before after,
               decode output = before ++ content ++ after
               /\ (length prompt <= length before)%nat
               /\ forallb is_space after = true
               /\ content <> []
               /\ (forall x xs, content = x :: xs -> is_space x = false)
               /\ (forall x xs, content = xs ++ [x] -> is_space x = false)).
Proof.
  intros body w resp w' H.
  destruct (content_parts body w resp w' H)
    as (args & output & w1 & c & Hgen & Hc & Hcontent & l & r & Hdrop
        & Hl & Hr & Hhead & Hlast).
  exists args, output, w1, c. split; [exact Hgen|]. split; [exact Hc|].
  cbv zeta in *.
  set (prompt := build_prompt (get (p_messages body) [])) in *.
  destruct (strip (drop (length prompt) (decode output))) as [|x xs] eqn:E.
  - left. exact Hcontent.
  - right. rewrite Hcontent.
    exists (take (length prompt) (decode output) ++ l), r.
    split; [|split; [|split; [exact Hr | split; [discriminate | auto]]]].
    + rewrite <- app_assoc, <- Hdrop. symmetry. apply take_drop.
    + rewrite length_app, length_take.
      assert (length (drop (length prompt) (decode output)) <> 0)%nat.
      { rewrite Hdrop, !length_app. simpl. lia. }
      rewrite length_drop in *. lia.
Qed.

End IdentifierFacts.

(** ** The prompt: composition, length and ambiguity *)

Section PromptStructure.

Lemma line_of_msg_of (r c : pystr) : line_of (msg_of r c) = r ++ lit ": " ++ c.
Proof. apply line_of_format. Qed.

(** X13: the prompt does not mark where a message ends.  A message whose
    content holds a newline and a line of the form ["{role}: {content}"]
    gives the same prompt as two messages: what a user writes after a
    newline cannot be told from a turn of another role. *)
Theorem build_prompt_newline_ambiguity :
  forall (r c r' c' : pystr) (before after : list message),
    build_prompt
      (before ++ msg_of r (c ++ newline ++ r' ++ lit ": " ++ c') :: after)
    = build_prompt (before ++ msg_of r c :: msg_of r' c' :: after).
Proof.
  intros r c r' c' before after.
  induction before as [|m before IH].
  - rewrite !app_nil_l, !build_prompt_cons, !line_of_msg_of.
    now rewrite <- !app_assoc.
  - rewrite <- !app_comm_cons, !build_prompt_cons. now rewrite IH.
Qed.

(** X14: the length of the prompt, which is the offset at which the
    handler cuts the decoded output: for each message the length of its
    role and of its content and three more characters, and ten characters
    for ["assistant:"]. *)
Theorem build_prompt_length :
  forall messages : list message,
    len (build_prompt messages)
    = fold_right
        (fun msg total =>
           len (dict_get msg "role" (lit "user"))
           + len (dict_get msg "content" (lit "")) + 3 + total)
        10 messages.
Proof.
  induction messages as [|m rest IH]; [reflexivity|].
  rewrite build_prompt_cons. simpl fold_right. rewrite <- IH.
  unfold len, line_of, dict_get, newline.
  change (lit "") with (@nil N).
  rewrite !length_app. simpl length. lia.
Qed.

(** X15: a conversation that goes on keeps the lines it had: the prompt
    of a conversation followed by further messages is the lines of the
    conversation, each with its newline, followed by the prompt of the
    further messages. *)
Theorem build_prompt_app :
  forall earlier later : list message,
    build_prompt (earlier ++ later)
    = concat (map (fun msg => line_of msg ++ newline) earlier)
      ++ build_prompt later.
Proof.
  intros earlier later. induction earlier as [|m rest IH]; [reflexivity|].
  rewrite <- app_comm_cons, build_prompt_cons, IH.
  cbn [map concat]. now rewrite <- !app_assoc.
Qed.

(** X16: [format_messages] keeps the number and the order of the pairs,
    and the message of a pair has the keys ["role"] and ["content"], with
    the two strings of the pair, and no other key. *)
Theorem format_messages_lookup :
  forall (pairs : list (pystr * pystr)),
    length (format_messages pairs) = length pairs
    /\ forall (i : nat) (r c : pystr),
         pairs !! i = Some (r, c) ->
         exists msg,
           format_messages pairs !! i = Some msg
           /\ msg !! lit "role" = Some r
           /\ msg !! lit "content" = Some c
           /\ forall key, key <> lit "role" -> key <> lit "content" ->
                          msg !! key = None.
Proof.
  intros pairs. unfold format_messages. split; [apply length_map|].
  intros i r c Hi.
  exists (msg_of r c). split.
  - change (map ?f pairs) with (f <$> pairs). rewrite list_lookup_fmap, Hi.
    reflexivity.
  - unfold msg_of. split; [apply lookup_insert_eq|]. split.
    + rewrite lookup_insert_ne by (vm_compute; discriminate).
      apply lookup_insert_eq.
    + intros key H1 H2. now rewrite !lookup_insert_ne, lookup_empty by auto.
Qed.

End PromptStructure.

(** ** The client scripts *)

Section ClientFacts.
Import Client.








Lemma lstrip_chars_length chars (s : pystr) :
  (length (lstrip_chars chars s) <= length s)%nat.
Proof.
  induction s as [|c s IH]; simpl; [lia|].
  destruct (existsb (N.eqb c) chars); simpl; lia.
Qed.

Lemma lstrip_chars_decompose chars (s : pystr) :
  exists removed,
    s = removed ++ lstrip_chars chars s
    /\ forallb (fun c => existsb (N.eqb c) chars) removed = true.
Proof.
  induction s as [|c s (removed & Hs & Hr)]; [now exists []|].
  simpl. destruct (existsb (N.eqb c) chars) eqn:Hc.
  - exists (c :: removed). split.
    + simpl. now rewrite <- Hs.
    + simpl. now rewrite Hc, Hr.
  - now exists [].
Qed.

Lemma rstrip_chars_snoc chars (s : pystr) (c : N) :
  rstrip_chars chars (s ++ [c])
  = if existsb (N.eqb c) chars then rstrip_chars chars s else s ++ [c].
Proof.
  unfold rstrip_chars. rewrite rev_app_distr. simpl.
  destruct (existsb (N.eqb c) chars); [reflexivity|].
  simpl. now rewrite rev_involutive.
Qed.

(** X19: the URL that [main] waits for is the base URL without every
    character at its end that is a slash, a [v] or a [1], in any order
    and number, not without the suffix ["/v1"].  A base URL that ends
    with one of these characters, such as one whose port ends with the
    digit 1, is cut; a base URL that ends with another character is kept
    as it is. *)
Theorem health_base_strips_characters :
  forall (url : pystr) (c : N),
    (exists removed,
       url = health_base url ++ removed
       /\ forallb (fun x => existsb (N.eqb x) (lit "/v1")) removed = true)
    /\ (existsb (N.eqb c) (lit "/v1") = true ->
        health_base (url ++ [c]) = health_base url
        /\ (length (health_base (url ++ [c])) <= length url)%nat
        /\ health_base (url ++ [c]) <> url ++ [c])
    /\ (existsb (N.eqb c) (lit "/v1") = false ->
        health_base (url ++ [c]) = url ++ [c]).
Proof.
  intros url c. unfold health_base. split; [|split].
  - destruct (lstrip_chars_decompose (lit "/v1") (rev url))
      as (removed & Hs & Hr).
    exists (rev removed). unfold rstrip_chars. split.
    + rewrite <- rev_app_distr, <- Hs. symmetry. apply rev_involutive.
    + now rewrite forallb_rev.
  - intros Hc. rewrite rstrip_chars_snoc, Hc.
    assert (Hlen : (length (rstrip_chars (lit "/v1") url) <= length url)%nat).
    { unfold rstrip_chars. rewrite length_rev.
      pose proof (lstrip_chars_length (lit "/v1") (rev url)) as H.
      now rewrite length_rev in H. }
    split; [reflexivity|]. split; [exact Hlen|].
    intros Heq. apply (f_equal (@length N)) in Heq.
    rewrite length_app in Heq. simpl in Heq. lia.
  - intros Hc. now rewrite rstrip_chars_snoc, Hc.
Qed.

End ClientFacts.

(** ** The further properties at the example instance *)

Section FurtherInstances.

Ltac run := vm_compute; reflexivity.

Lemma char_runtime_appends : appends_tokens char_runtime.
Proof. intros args w output w' H. simpl in H. injection H as <- _. eauto. Qed.

Lemma char_runtime_decodes : decodes_after_prompt char_runtime.
Proof.
  intros prompt new. simpl. rewrite map_app, map_map. f_equal.
  rewrite <- (map_id prompt) at 2. apply map_ext. intros c. apply N2Z.id.
Qed.




Lemma mkdir_only_adds_directories_example :
  mkdir tiny_gpt2_dir true true fresh_world
  = (Ok tt, set_fs fresh_world cache_directories)
  /\ stat cache_directories tiny_gpt2_dir = Some Dir.
Proof.
  assert (Hmk : mkdir tiny_gpt2_dir true true fresh_world
                = (Ok tt, set_fs fresh_world cache_directories)) by run.
  split; [exact Hmk|].
  exact (proj2 (proj2 (proj2 (mkdir_only_adds_directories _ _ _ _ _ _ Hmk)))
           eq_refl).
Defined.

Lemma ensure_model_file_in_the_way_example :
  ensure_model (hub := one_file_hub) tiny_gpt2 [lit "models"]
    world_with_models_file
  = (Raise FileExistsError, world_with_models_file)
  /\ ensure_model (hub := one_file_hub) tiny_gpt2 tiny_gpt2_dir
       world_with_models_file
     = (Raise NotADirectoryError, world_with_models_file).
Proof.
  split.
  - apply (proj1 (ensure_model_file_in_the_way (hub := one_file_hub) tiny_gpt2
                    [lit "models"] world_with_models_file)). run.
  - apply (proj2 (ensure_model_file_in_the_way (hub := one_file_hub) tiny_gpt2
                    tiny_gpt2_dir world_with_models_file)); run.
Defined.


Lemma chat_completions_raises_example :
  generate (Runtime := failing_runtime) hi_args fresh_world
  = (Raise (ExternalFault 1), fresh_world)
  /\ chat_completions (rt := failing_runtime) tiny_gpt2 hi_request fresh_world
     = (Raise (ExternalFault 1), fresh_world).
Proof.
  split; [reflexivity|].
  apply (chat_completions_raises (rt := failing_runtime)).
  do 3 right. left. exists hi_prompt, hi_args. split; run.
Defined.

Lemma max_tokens_conversion_example :
  p_max_tokens nan_request = Some (Float S754_nan)
  /\ chat_completions (rt := char_runtime) tiny_gpt2 nan_request fresh_world
     = (Raise ValueError, fresh_world).
Proof.
  split; [reflexivity|].
  exact (proj1 (max_tokens_conversion (rt := char_runtime) tiny_gpt2
                  nan_request fresh_world) eq_refl).
Defined.

Lemma chat_completions_effect_example :
  chat_completions (rt := char_runtime) tiny_gpt2 hi_request fresh_world
  = (Ok (response_to (lit "Hi") 19), world_after_request)
  /\ exists prompt args output w1,
       generation_request (rt := char_runtime) hi_request fresh_world
       = (Ok (prompt, args), fresh_world)
       /\ generate (Runtime := char_runtime) args fresh_world = (Ok output, w1)
       /\ world_after_request = after_draw w1.
Proof.
  assert (Hrun :
    chat_completions (rt := char_runtime) tiny_gpt2 hi_request fresh_world
    = (Ok (response_to (lit "Hi") 19), world_after_request)) by run.
  split; [exact Hrun|].
  destruct (chat_completions_effect (rt := char_runtime) tiny_gpt2 hi_request
              fresh_world _ _ Hrun)
    as (prompt & args & output & w1 & Hreq & Hgen & Hw & _).
  exists prompt, args, output, w1. auto.
Defined.

Lemma response_id_random_bits_example :
  chat_completions (rt := char_runtime) tiny_gpt2 hi_request fresh_world
  = (Ok (response_to (lit "Hi") 19), world_after_request)
  /\ exists args output w1,
       generate (Runtime := char_runtime) args fresh_world = (Ok output, w1)
       /\ Resp.id (response_to (lit "Hi") 19)
          = lit "chatcmpl-"
            ++ hex_digits 12
                 (Z.shiftr (entropy w1 (entropy_used w1)) 80 mod 2 ^ 48).
Proof.
  assert (Hrun :
    chat_completions (rt := char_runtime) tiny_gpt2 hi_request fresh_world
    = (Ok (response_to (lit "Hi") 19), world_after_request)) by run.
  split; [exact Hrun|].
  destruct (response_id_random_bits (rt := char_runtime) tiny_gpt2 hi_request
              fresh_world _ _ Hrun)
    as (args & output & w1 & Hgen & Hid & _).
  exists args, output, w1. auto.
Defined.

Lemma completion_is_new_text_example :
  chat_completions (rt := char_runtime) tiny_gpt2 hi_request fresh_world
  = (Ok (response_to (lit "Hi") 19), world_after_request)
  /\ exists args output w1 new c,
       generate (Runtime := char_runtime) args fresh_world = (Ok output, w1)
       /\ output
          = tokenizer (Runtime := char_runtime)
              (build_prompt (get (p_messages hi_request) [])) ++ new
       /\ Resp.choices (response_to (lit "Hi") 19) = [c]
       /\ Resp.content (Resp.message c)
          = match strip (decode (Runtime := char_runtime) new) with
            | [] => build_prompt (get (p_messages hi_request) [])
                    ++ decode (Runtime := char_runtime) new
            | _ :: _ => strip (decode (Runtime := char_runtime) new)
            end.
Proof.
  assert (Hrun :
    chat_completions (rt := char_runtime) tiny_gpt2 hi_request fresh_world
    = (Ok (response_to (lit "Hi") 19), world_after_request)) by run.
  split; [exact Hrun|].
  destruct (completion_is_new_text (rt := char_runtime) tiny_gpt2 hi_request
              fresh_world _ _ char_runtime_appends char_runtime_decodes Hrun)
    as (args & output & w1 & new & c & Hreq & Hgen & Hout & _ & Hc & Hcontent).
  exists args, output, w1, new, c. auto.
Defined.

Lemma completion_is_a_slice_example :
  chat_completions (rt := char_runtime) tiny_gpt2 empty_request fresh_world
  = (Ok (response_to (lit "Hi") 10), world_after_request)
  /\ exists args output w1 c,
       generate (Runtime := char_runtime) args fresh_world = (Ok output, w1)
       /\ Resp.choices (response_to (lit "Hi") 10) !! 0%nat = Some c.
Proof.
  assert (Hrun :
    chat_completions (rt := char_runtime) tiny_gpt2 empty_request fresh_world
    = (Ok (response_to (lit "Hi") 10), world_after_request)) by run.
  split; [exact Hrun|].
  destruct (completion_is_a_slice (rt := char_runtime) tiny_gpt2 empty_request
              fresh_world _ _ Hrun)
    as (args & output & w1 & c & Hgen & Hc & _).
  exists args, output, w1, c. auto.
Defined.




Lemma health_base_strips_characters_example :
  Client.local_url (lit "127.0.0.1") 8001 = lit "http://127.0.0.1:800" ++ [49%N]
  /\ Client.health_base (lit "http://127.0.0.1:800" ++ [49%N])
     = Client.health_base (lit "http://127.0.0.1:800")
  /\ Client.health_base (lit "http://127.0.0.1:800") = lit "http://127.0.0.1:800".
Proof.
  split; [run|]. split; [|run].
  exact (proj1 (proj1 (proj2 (health_base_strips_characters
                                (lit "http://127.0.0.1:800") 49%N)) eq_refl)).
Defined.

End FurtherInstances.

(** ** What [time.sleep] refuses *)

Section SleepExamples.
Import Client.

Example sleep_error_examples :
  sleep_error S754_nan = Some ValueError
  /\ sleep_error (S754_infinity false) = Some OverflowError
  /\ sleep_error (S754_infinity true) = Some OverflowError
  /\ sleep_error (S754_finite true 4503599627370496 (-52)) = Some ValueError
  /\ sleep_error (S754_finite false 5242880000000000 (-19)) = Some OverflowError
  /\ sleep_error (S754_zero true) = None
  /\ sleep_error (S754_zero false) = None
  /\ sleep_error float_0_5 = None
  /\ sleep_error float_1_0 = None.
Proof. vm_compute. repeat split. Qed.

(** A negative delay: the first failed request ends the wait. *)
Example wait_for_health_negative_delay :
  wait_for_health (lit "http://127.0.0.1:8001") 40
    (S754_finite true 4503599627370496 (-52)) slow_start
  = (Raised ValueError,
     after_waiting slow_start 1 0 (S754_finite true 4503599627370496 (-52)) []).
Proof. vm_compute. reflexivity. Qed.

End SleepExamples.
